(** * System Prompt Explorer: the [Index] page component

    A shallow embedding of [src/pages/Index.tsx] (the variant with the
    "vault" tab): the four [useState] cells, the two handlers
    [copyToClipboard] and [loadSystemInfo], the [useEffect] keyed on
    [activeTab], and the element tree of the vault panel.

    The component runs on the browser's event loop.  Each handler runs to
    completion; an [await] suspends the handler and a later event resumes
    it.  The model is therefore a transition system: a [World] holds the
    component state together with what the browser holds for it (pending
    timers, suspended calls, the clock), and an [Event] is one turn of the
    event loop. *)

From Stdlib Require Import String Ascii List NArith Bool Lia.
From Stdlib Require Import Floats.SpecFloat.
From stdpp Require Import base option list gmap strings pretty.
Import ListNotations.

#[local] Set Warnings "-register-all".

Local Open Scope string_scope.
Local Open Scope N_scope.
Local Open Scope list_scope.

(** ** JavaScript values

    [systemInfo] has type [any]: it holds whatever [response.json()]
    produced.  The render code tests such values for truthiness, reads
    properties off them and enumerates them. *)
Module JS.

(** A number is an IEEE double ([spec_float]).  An object is the list of
    its own enumerable properties in enumeration order; a string is a
    sequence of code units. *)
Inductive value : Type :=
| VUndefined
| VNull
| VBool (b : bool)
| VNum (f : spec_float)
| VStr (s : string)
| VArr (elems : list value)
| VObj (props : list (string * value)).

(** [ToBoolean]: what [!v], [v && e], [v || e] and [v ? a : b] test. *)
Definition truthy (v : value) : bool :=
  match v with
  | VUndefined | VNull => false
  | VBool b => b
  | VNum (S754_zero _) | VNum S754_nan => false
  | VNum _ => true
  | VStr s => negb (String.eqb s "")
  | VArr _ | VObj _ => true
  end.

(** [null] and [undefined], the values that have no properties. *)
Definition nullish (v : value) : bool :=
  match v with
  | VUndefined | VNull => true
  | _ => false
  end.

(** [a || b] *)
Definition or (a b : value) : value := if truthy a then a else b.

Fixpoint own_prop (k : string) (props : list (string * value)) : option value :=
  match props with
  | [] => None
  | (k', v) :: rest => if String.eqb k k' then Some v else own_prop k rest
  end.

(** [v.k] for the identifier keys the component reads ([env_files],
    [error], [content], [external_ip], ...), none of which is a property of
    an array, a string, a number, a boolean or of [Object.prototype]:
    on an object the own property or [undefined], on the other non-nullish
    values [undefined].  [None] is the [TypeError] of reading a property of
    [null] or [undefined]. *)
Definition get (v : value) (k : string) : option value :=
  match v with
  | VUndefined | VNull => None
  | VObj props => Some (default VUndefined (own_prop k props))
  | VBool _ | VNum _ | VStr _ | VArr _ => Some VUndefined
  end.

Definition index_key (i : nat) : string := pretty i.

(** [Object.entries(v)]; [None] is the [TypeError] on [null] and
    [undefined]. *)
Definition Object_entries (v : value) : option (list (string * value)) :=
  match v with
  | VUndefined | VNull => None
  | VObj props => Some props
  | VArr elems => Some (imap (fun i x => (index_key i, x)) elems)
  | VStr s =>
      Some (imap (fun i c => (index_key i, VStr (String c EmptyString)))
                 (list_ascii_of_string s))
  | VBool _ | VNum _ => Some []
  end.

(** [Object.keys(v)] *)
Definition Object_keys (v : value) : option (list string) :=
  map fst <$> Object_entries v.

End JS.

(** ** What the browser holds for the component *)

(** The argument of a [toast({...})] call. *)
Record Toast := {
  title : string;
  description : string;
  variant : option string
}.

(** A completed HTTP exchange, as far as [loadSystemInfo] can observe it:
    the status line (which it never reads) and what [response.json()]
    settles to, [Some data] when the body is valid JSON and [None] when
    parsing rejects. *)
Record Response := {
  status : N;
  json : option JS.value
}.

(** Where a suspended [loadSystemInfo] call is waiting. *)
Inductive Stage :=
| AwaitFetch                       (* at [await fetch(url)] *)
| AwaitJson (response : Response). (* at [await response.json()] *)

(** The four state cells of [Index], then the environment: the clock in
    milliseconds, the due times of the pending
    [setTimeout(() => setCopiedCode(null), 2000)] callbacks in the order
    they were scheduled, the suspended [loadSystemInfo] calls by call
    number, the next call number (which is also the number of [fetch]
    requests issued so far), the [toast] calls made so far, the clipboard
    content and the number of rejected promises nobody handled. *)
Record World := {
  activeTab : string;
  copiedCode : option string;
  systemInfo : JS.value;
  loading : bool;
  now : N;
  timers : list N;
  pending : gmap nat Stage;
  nextCall : nat;
  toasts : list Toast;
  clipboard : option string;
  unhandledRejections : nat
}.

(** The state after mount: [useState('prompt')], [useState(null)],
    [useState(null)], [useState(false)]. *)
Definition init : World := {|
  activeTab := "prompt";
  copiedCode := None;
  systemInfo := JS.VNull;
  loading := false;
  now := 0;
  timers := [];
  pending := ∅;
  nextCall := 0;
  toasts := [];
  clipboard := None;
  unhandledRejections := 0
|}.

(** *** State setters and browser calls *)

Definition setActiveTab (v : string) (w : World) : World :=
  {| activeTab := v; copiedCode := copiedCode w; systemInfo := systemInfo w;
     loading := loading w; now := now w; timers := timers w;
     pending := pending w; nextCall := nextCall w; toasts := toasts w;
     clipboard := clipboard w; unhandledRejections := unhandledRejections w |}.

Definition setCopiedCode (c : option string) (w : World) : World :=
  {| activeTab := activeTab w; copiedCode := c; systemInfo := systemInfo w;
     loading := loading w; now := now w; timers := timers w;
     pending := pending w; nextCall := nextCall w; toasts := toasts w;
     clipboard := clipboard w; unhandledRejections := unhandledRejections w |}.

Definition setSystemInfo (data : JS.value) (w : World) : World :=
  {| activeTab := activeTab w; copiedCode := copiedCode w; systemInfo := data;
     loading := loading w; now := now w; timers := timers w;
     pending := pending w; nextCall := nextCall w; toasts := toasts w;
     clipboard := clipboard w; unhandledRejections := unhandledRejections w |}.

Definition setLoading (b : bool) (w : World) : World :=
  {| activeTab := activeTab w; copiedCode := copiedCode w;
     systemInfo := systemInfo w; loading := b; now := now w;
     timers := timers w; pending := pending w; nextCall := nextCall w;
     toasts := toasts w; clipboard := clipboard w;
     unhandledRejections := unhandledRejections w |}.

Definition set_now (t : N) (w : World) : World :=
  {| activeTab := activeTab w; copiedCode := copiedCode w;
     systemInfo := systemInfo w; loading := loading w; now := t;
     timers := timers w; pending := pending w; nextCall := nextCall w;
     toasts := toasts w; clipboard := clipboard w;
     unhandledRejections := unhandledRejections w |}.

Definition set_timers (ts : list N) (w : World) : World :=
  {| activeTab := activeTab w; copiedCode := copiedCode w;
     systemInfo := systemInfo w; loading := loading w; now := now w;
     timers := ts; pending := pending w; nextCall := nextCall w;
     toasts := toasts w; clipboard := clipboard w;
     unhandledRejections := unhandledRejections w |}.

Definition set_pending (p : gmap nat Stage) (w : World) : World :=
  {| activeTab := activeTab w; copiedCode := copiedCode w;
     systemInfo := systemInfo w; loading := loading w; now := now w;
     timers := timers w; pending := p; nextCall := nextCall w;
     toasts := toasts w; clipboard := clipboard w;
     unhandledRejections := unhandledRejections w |}.

(** [toast({...})]: one more notification. *)
Definition toast (t : Toast) (w : World) : World :=
  {| activeTab := activeTab w; copiedCode := copiedCode w;
     systemInfo := systemInfo w; loading := loading w; now := now w;
     timers := timers w; pending := pending w; nextCall := nextCall w;
     toasts := toasts w ++ [t]; clipboard := clipboard w;
     unhandledRejections := unhandledRejections w |}.

(** What becomes of [navigator.clipboard.writeText(text)].  Where the
    Clipboard API is missing (a page that is not served from a secure
    origin) [navigator.clipboard] is [undefined] and reading [.writeText]
    off it throws a [TypeError].  Otherwise the call returns a promise,
    which is fulfilled or rejected later. *)
Inductive WriteFate :=
| NoClipboard
| Fulfilled
| Rejected.

(** [navigator.clipboard.writeText(text)], with the promise dropped as the
    caller drops it: a fulfilled write changes the clipboard, a rejected
    one leaves an unhandled rejection behind.  [None] is the
    [TypeError]. *)
Definition writeText (fate : WriteFate) (text : string) (w : World)
  : option World :=
  match fate with
  | NoClipboard => None
  | Fulfilled =>
      Some {| activeTab := activeTab w; copiedCode := copiedCode w;
              systemInfo := systemInfo w; loading := loading w; now := now w;
              timers := timers w; pending := pending w;
              nextCall := nextCall w; toasts := toasts w;
              clipboard := Some text;
              unhandledRejections := unhandledRejections w |}
  | Rejected =>
      Some {| activeTab := activeTab w; copiedCode := copiedCode w;
              systemInfo := systemInfo w; loading := loading w; now := now w;
              timers := timers w; pending := pending w;
              nextCall := nextCall w; toasts := toasts w;
              clipboard := clipboard w;
              unhandledRejections := S (unhandledRejections w) |}
  end.

(** [setTimeout(() => setCopiedCode(null), delay)] *)
Definition setTimeout (delay : N) (w : World) : World :=
  set_timers (timers w ++ [now w + delay]) w.

(** [fetch(url)] followed by [await]: the request goes out and the calling
    [loadSystemInfo] is suspended under a fresh call number. *)
Definition fetch (w : World) : World :=
  {| activeTab := activeTab w; copiedCode := copiedCode w;
     systemInfo := systemInfo w; loading := loading w; now := now w;
     timers := timers w;
     pending := <[nextCall w := AwaitFetch]> (pending w);
     nextCall := S (nextCall w); toasts := toasts w;
     clipboard := clipboard w; unhandledRejections := unhandledRejections w |}.

(** ** The handlers *)

(** [copyToClipboard(text, id)].  The call of [writeText] is its first
    statement and stands outside any [try]: when it throws, the two
    statements after it do not run and the exception leaves the handler
    ([None]). *)
Definition copyToClipboard (fate : WriteFate) (text id : string) (w : World)
  : option World :=
  w ← writeText fate text w;
  let w := setCopiedCode (Some id) w in
  Some (setTimeout 2000 w).

Definition loadedToast : Toast := {|
  title := "System info loaded";
  description := "Security vault data retrieved successfully";
  variant := None
|}.

Definition errorToast : Toast := {|
  title := "Error";
  description := "Failed to load system information";
  variant := Some "destructive"
|}.

(** The [catch (error)] and [finally] blocks of [loadSystemInfo]. *)
Definition catch_block (w : World) : World := toast errorToast w.
Definition finally_block (w : World) : World := setLoading false w.

(** [loadSystemInfo()], from the call to the first [await]. *)
Definition loadSystemInfo (w : World) : World :=
  let w := setLoading true w in
  fetch w.

(** [loadSystemInfo] resumed when [fetch] settles: with [Some response] it
    goes on to [await response.json()], with [None] (the request could not
    be completed, [fetch] rejected) it runs [catch] and [finally]. *)
Definition resume_fetch (call : nat) (r : option Response) (w : World)
  : World :=
  match r with
  | Some response => set_pending (<[call := AwaitJson response]> (pending w)) w
  | None => finally_block (catch_block (set_pending (delete call (pending w)) w))
  end.

(** [loadSystemInfo] resumed when [response.json()] settles. *)
Definition resume_json (call : nat) (response : Response) (w : World)
  : World :=
  let w := set_pending (delete call (pending w)) w in
  match json response with
  | Some data =>
      let w := setSystemInfo data w in
      let w := toast loadedToast w in
      finally_block w
  | None => finally_block (catch_block w)
  end.

(** The body of [useEffect(() => {...}, [activeTab])]. *)
Definition effect (w : World) : World :=
  if String.eqb (activeTab w) "vault" && negb (JS.truthy (systemInfo w))
  then loadSystemInfo w
  else w.

(** ** Turns of the event loop *)

(** The [value]s of the five [TabsTrigger]s. *)
Definition tabValues : list string :=
  ["prompt"; "schema"; "examples"; "api"; "vault"].

Inductive Event :=
| SelectTab (value : string)
    (* a tab trigger is activated: [onValueChange={setActiveTab}] *)
| ClickCopy (text id : string) (fate : WriteFate)
    (* a copy button: [copyToClipboard(text, id)] *)
| ClickRefresh
    (* the Refresh button of the vault panel: [onClick={loadSystemInfo}] *)
| FetchSettles (call : nat) (r : option Response)
| JsonSettles (call : nat)
| Elapse (ms : N)
| TimerFires (k : nat).
    (* the [k]-th pending timeout runs its callback *)

(** One turn: the state the handlers leave when the event is delivered.
    [None] means the event cannot happen in this state: a button that is
    not rendered or is disabled, a call that is not waiting there, a
    timeout that is not due.

    An exception that leaves an event handler ends that handler and
    nothing else: a copy that throws has set no state.

    [ClickCopy text id] stands for any copy button, with the text and the
    id that button passes; which copy buttons are on screen is not
    tracked.  The events of the user ([SelectTab], [ClickCopy],
    [ClickRefresh]) are those of a page that is on screen: [step] gives
    what their handlers do and does not itself decide whether React still
    shows the page.

    The effect depends on [[activeTab]]: after the mount it runs only
    after a render in which [activeTab] differs from the previous one.
    The Refresh button lives inside [TabsContent value="vault"] and carries
    [disabled={loading}]. *)
Definition step (e : Event) (w : World) : option World :=
  match e with
  | SelectTab v =>
      if bool_decide (v ∈ tabValues) then
        let w' := setActiveTab v w in
        Some (if String.eqb (activeTab w) v then w' else effect w')
      else None
  | ClickCopy text id fate =>
      Some (default w (copyToClipboard fate text id w))
  | ClickRefresh =>
      if String.eqb (activeTab w) "vault" && negb (loading w)
      then Some (loadSystemInfo w)
      else None
  | FetchSettles call r =>
      match pending w !! call with
      | Some AwaitFetch => Some (resume_fetch call r w)
      | _ => None
      end
  | JsonSettles call =>
      match pending w !! call with
      | Some (AwaitJson response) => Some (resume_json call response w)
      | _ => None
      end
  | Elapse ms => Some (set_now (now w + ms) w)
  | TimerFires k =>
      match timers w !! k with
      | Some due =>
          if due <=? now w
          then Some (setCopiedCode None (set_timers (delete k (timers w)) w))
          else None
      | None => None
      end
  end.

(** A sequence of turns. *)
Fixpoint run (evs : list Event) (w : World) : option World :=
  match evs with
  | [] => Some w
  | e :: rest =>
      match step e w with
      | Some w' => run rest w'
      | None => None
      end
  end.

(** The mount runs the effect once, with [activeTab = 'prompt']. *)
Definition mounted : World := effect init.

Definition reachable (w : World) : Prop :=
  exists evs, run evs mounted = Some w.

(** Number of [loadSystemInfo] calls an event starts. *)
Definition fetches_started (w w' : World) : nat := nextCall w' - nextCall w.

(** Number of [loadSystemInfo] calls in flight. *)
Definition in_flight (w : World) : nat := size (pending w).

(** The last turn of a [loadSystemInfo] call, and how the call ends: its
    [await fetch] rejects, its [await response.json()] rejects, or the
    parsed body arrives. *)
Inductive Outcome :=
| FetchRejected
| JsonRejected
| Loaded (data : JS.value).

Definition completion (e : Event) (w : World) : option Outcome :=
  match e with
  | FetchSettles call None =>
      match pending w !! call with
      | Some AwaitFetch => Some FetchRejected
      | _ => None
      end
  | JsonSettles call =>
      match pending w !! call with
      | Some (AwaitJson response) =>
          Some (match json response with
                | Some data => Loaded data
                | None => JsonRejected
                end)
      | _ => None
      end
  | _ => None
  end.

(** The [catch] block ran. *)
Definition failed (o : Outcome) : bool :=
  match o with
  | FetchRejected | JsonRejected => true
  | Loaded _ => false
  end.

(** The two turns that take a call waiting at [await fetch] to its end when
    the server answers with [response]. *)
Definition respond (call : nat) (response : Response) : list Event :=
  [FetchSettles call (Some response); JsonSettles call].

(** The turns that end a call waiting at [await fetch]: the request fails,
    or a response arrives and its body is read. *)
Definition settle (call : nat) (r : option Response) : list Event :=
  match r with
  | Some response => respond call response
  | None => [FetchSettles call None]
  end.

(** ** The vault panel

    The element tree [Index] builds inside [TabsContent value="vault"],
    as far as the property reads and the branches of the JSX go.  A child
    is kept as the value its expression reads: [external_ip] is the value
    of [systemInfo.external_ip], a row of [environment_variables] holds
    the [value] that the code hands to [String(value)], and
    [directory_structure] the value it hands to [JSON.stringify].  What
    [String] makes of such a value and what React does with a child come
    after these reads and are not part of the tree; for a payload of the
    shape of the data contract, whose fields are strings, they change
    nothing. *)

Inductive FileBody :=
| ErrorText (error : JS.value)        (* [<p>Error: {data.error}</p>] *)
| FileContent (content : JS.value).   (* [<pre>{data.content}</pre>] *)

Inductive EnvFilesView :=
| NoEnvFilesFound   (* the card "No .env files found in search paths" *)
| EnvFileCards (cards : list (string * FileBody)).

(** One [Card key={path}] of the [.map(([path, data]) => ...)]. *)
Definition render_env_file (entry : string * JS.value)
  : option (string * FileBody) :=
  let '(path, data) := entry in
  error ← JS.get data "error";
  if JS.truthy error then Some (path, ErrorText error)
  else content ← JS.get data "content"; Some (path, FileContent content).

(** The ".env Files Found" section. *)
Definition render_env_files (info : JS.value) : option EnvFilesView :=
  env_files ← JS.get info "env_files";
  keys ← JS.Object_keys (JS.or env_files (JS.VObj []));
  if Nat.eqb (length keys) 0 then Some NoEnvFilesFound
  else
    entries ← JS.Object_entries (JS.or env_files (JS.VObj []));
    EnvFileCards <$> mapM render_env_file entries.

(** The block under [systemInfo && (...)]. *)
Record InfoView := {
  external_ip : JS.value;
  directory_structure : JS.value;
  environment_variables : list (string * JS.value);
  env_files : EnvFilesView;
  request_id : JS.value;
  current_dir : JS.value
}.

Definition render_info (info : JS.value) : option InfoView :=
  ip ← JS.get info "external_ip";
  dirs ← JS.get info "directory_structure";
  vars ← JS.get info "environment_variables";
  var_entries ← JS.Object_entries (JS.or vars (JS.VObj []));
  files ← render_env_files info;
  rid ← JS.get info "request_id";
  cwd ← JS.get info "current_dir";
  Some {| external_ip := ip; directory_structure := dirs;
          environment_variables := var_entries; env_files := files;
          request_id := rid; current_dir := cwd |}.

(** [systemInfo && (...)] evaluates to [systemInfo] itself when that is
    falsy. *)
Inductive InfoSlot :=
| Falsy (v : JS.value)
| Info (view : InfoView).

Record VaultPanel := {
  refresh_disabled : bool;
  refresh_label : string;
  info_slot : InfoSlot;
  placeholder : bool   (* the "Click Refresh to load" hint *)
}.

(** [None]: a property read in the JSX throws. *)
Definition render_vault (w : World) : option VaultPanel :=
  slot ← (if JS.truthy (systemInfo w) then Info <$> render_info (systemInfo w)
          else Some (Falsy (systemInfo w)));
  Some {| refresh_disabled := loading w;
          refresh_label := if loading w then "Loading..." else "Refresh";
          info_slot := slot;
          placeholder := negb (JS.truthy (systemInfo w)) && negb (loading w) |}.

(** ** The data contract, in the words of the specification *)
Module Spec.

Definition is_string (v : JS.value) : bool :=
  match v with JS.VStr _ => true | _ => false end.

Definition is_mapping (v : JS.value) : bool :=
  match v with JS.VObj _ => true | _ => false end.

Definition is_mapping_of (p : JS.value -> bool) (v : JS.value) : bool :=
  match v with JS.VObj props => forallb (fun kv => p kv.2) props | _ => false end.

(** "either {content: string} or {error: string}" *)
Definition is_env_file (v : JS.value) : bool :=
  match v with
  | JS.VObj [(k, JS.VStr _)] => String.eqb k "content" || String.eqb k "error"
  | _ => false
  end.

Definition has_field (p : JS.value -> bool) (k : string) (v : JS.value) : bool :=
  match v with
  | JS.VObj props =>
      match JS.own_prop k props with Some x => p x | None => false end
  | _ => false
  end.

(** "DiagnosticPayload: external_ip (string), directory_structure
    (arbitrary nested mapping), environment_variables (mapping of string to
    string), env_files (mapping of file path to either {content: string} or
    {error: string}), request_id (string), current_dir (string)." *)
Definition is_DiagnosticPayload (v : JS.value) : bool :=
  has_field is_string "external_ip" v
  && has_field is_mapping "directory_structure" v
  && has_field (is_mapping_of is_string) "environment_variables" v
  && has_field (is_mapping_of is_env_file) "env_files" v
  && has_field is_string "request_id" v
  && has_field is_string "current_dir" v.

(** "ParseError (response body was not valid JSON or missing expected
    shape)" *)
Definition ParseError (response : Response) : bool :=
  match json response with
  | None => true
  | Some data => negb (is_DiagnosticPayload data)
  end.

End Spec.

(** ** The copy buttons

    Each copy button shows [<Icon name={copiedCode === id ? 'Check' :
    'Copy'} />] for its own [id]: ['prompt'], ['schema'], and
    [`example-${index}`] for the card at [index] of
    [systemPromptData.examples.map((example, index) => ...)]. *)

Definition example_id (index : nat) : string := "example-" +:+ pretty index.

Inductive CopyButton :=
| PromptButton
| SchemaButton
| ExampleButton (index : nat).

#[global] Instance CopyButton_eq_dec : EqDecision CopyButton.
Proof. solve_decision. Defined.

(** The id a button passes to [copyToClipboard] and compares [copiedCode]
    with. *)
Definition button_id (b : CopyButton) : string :=
  match b with
  | PromptButton => "prompt"
  | SchemaButton => "schema"
  | ExampleButton index => example_id index
  end.

Definition copy_icon (id : string) (w : World) : string :=
  match copiedCode w with
  | Some c => if String.eqb c id then "Check" else "Copy"
  | None => "Copy"
  end.

(** ** Ways of using the page *)

(** The event enters the vault tab from another tab while [loading] is
    true. *)
Definition enters_vault_while_loading (e : Event) (w : World) : bool :=
  match e with
  | SelectTab v =>
      String.eqb v "vault" && negb (String.eqb (activeTab w) "vault")
      && loading w
  | _ => false
  end.

(** Along [evs], started in [w], the vault tab is never entered while
    [loading] is true. *)
Fixpoint stays_out_while_loading (evs : list Event) (w : World) : bool :=
  match evs with
  | [] => true
  | e :: rest =>
      negb (enters_vault_while_loading e w)
      && match step e w with
         | Some w' => stays_out_while_loading rest w'
         | None => true
         end
  end.

(** * Properties *)

(** ** One call of [loadSystemInfo] *)

(** Splits a hypothesis [completion e w = Some o] into its three cases,
    leaving the stage of the call in the context. *)
Ltac completion_cases H :=
  match type of H with
  | completion ?e ?w = Some _ =>
      destruct e as [?|? ? ?| |?call [?r|]|?call|?|?];
      try discriminate H;
      unfold completion in H;
      match type of H with
      | context [pending w !! ?c] =>
          let Hp := fresh "Hpending" in
          destruct (pending w !! c) as [[|?response]|] eqn:Hp;
          try discriminate H
      end
  end.

Lemma mounted_is_init : mounted = init.
Proof. reflexivity. Qed.

(** The synchronous prefix of a call touches [loading], the suspended
    calls and the call counter, nothing else. *)
Lemma loadSystemInfo_frame (w : World) :
  systemInfo (loadSystemInfo w) = systemInfo w
  /\ toasts (loadSystemInfo w) = toasts w
  /\ activeTab (loadSystemInfo w) = activeTab w
  /\ copiedCode (loadSystemInfo w) = copiedCode w
  /\ nextCall (loadSystemInfo w) = S (nextCall w)
  /\ pending (loadSystemInfo w) = <[nextCall w := AwaitFetch]> (pending w).
Proof. repeat split. Qed.

(** A response that arrives moves the call to its second [await] and
    changes nothing the user can see. *)
Lemma resume_fetch_response_frame (call : nat) (r : Response) (w : World) :
  systemInfo (resume_fetch call (Some r) w) = systemInfo w
  /\ toasts (resume_fetch call (Some r) w) = toasts w
  /\ loading (resume_fetch call (Some r) w) = loading w
  /\ pending (resume_fetch call (Some r) w) !! call = Some (AwaitJson r).
Proof. repeat split. simpl. apply lookup_insert_eq. Qed.

(** Progress: a suspended call can always be resumed, whatever the network
    does. *)
Lemma pending_call_can_settle (w : World) (call : nat) (s : Stage) :
  pending w !! call = Some s ->
  match s with
  | AwaitFetch => forall r, is_Some (step (FetchSettles call r) w)
  | AwaitJson _ => is_Some (step (JsonSettles call) w)
  end.
Proof.
  intros H. destruct s; [intros r|]; unfold step; rewrite H; eauto.
Qed.

(** C10. Every call of [loadSystemInfo] sets [loading] to true when it
    starts, and whichever way it ends (the request fails, the body does not
    parse, or the data arrive) its last turn happens, leaves
    [loading = false] and removes the call from the suspended ones. *)
Theorem loadSystemInfo_ends_not_loading
  (w0 w : World) (e : Event) (o : Outcome) :
  completion e w = Some o ->
  loading (loadSystemInfo w0) = true
  /\ exists w', step e w = Some w'
       /\ loading w' = false
       /\ in_flight w' = pred (in_flight w).
Proof.
  intros H. split; [reflexivity|].
  completion_cases H; unfold step; rewrite Hpending;
    eexists; (split; [reflexivity|]).
  - split; [reflexivity|].
    unfold in_flight; simpl. by rewrite map_size_delete, Hpending.
  - unfold in_flight, resume_json.
    destruct (json response); simpl;
      by rewrite map_size_delete, Hpending.
Qed.

Lemma loadSystemInfo_ends_not_loading_witness :
  completion (FetchSettles 0 None) (loadSystemInfo mounted) = Some FetchRejected
  /\ exists w', step (FetchSettles 0 None) (loadSystemInfo mounted) = Some w'
       /\ loading w' = false.
Proof.
  split; [reflexivity|].
  destruct (loadSystemInfo_ends_not_loading mounted (loadSystemInfo mounted)
              (FetchSettles 0 None) FetchRejected eq_refl)
    as [_ [w' [Hs [Hl _]]]].
  exists w'. split; assumption.
Defined.

(** [loading] is never left on with nothing in flight: in every reachable
    state with no suspended call, [loading = false]. *)
Lemma step_idle_not_loading (e : Event) (w w' : World) :
  (in_flight w = 0%nat -> loading w = false) ->
  step e w = Some w' ->
  in_flight w' = 0%nat -> loading w' = false.
Proof.
  intros Hinv Hstep.
  assert (Hins : forall k s (m : gmap nat Stage), size (<[k:=s]> m) <> 0%nat).
  { intros k s m Hz. apply map_size_empty_iff in Hz.
    by apply insert_non_empty in Hz. }
  destruct e as [v|text id ok| |call r|call|ms|k]; simpl in Hstep.
  - case_bool_decide; [|discriminate]. injection Hstep as <-.
    destruct (String.eqb (activeTab w) v); [exact Hinv|].
    unfold effect. destruct (_ && _); [|exact Hinv].
    unfold in_flight; simpl. intros Hz. by apply Hins in Hz.
  - injection Hstep as <-. by destruct ok.
  - destruct (_ && _); [|discriminate]. injection Hstep as <-.
    unfold in_flight; simpl. intros Hz. by apply Hins in Hz.
  - destruct (pending w !! call) as [[|?]|]; try discriminate.
    injection Hstep as <-. destruct r; [|reflexivity].
    unfold in_flight; simpl. intros Hz. by apply Hins in Hz.
  - destruct (pending w !! call) as [[|resp]|]; try discriminate.
    injection Hstep as <-. unfold resume_json. by destruct (json resp).
  - injection Hstep as <-. exact Hinv.
  - destruct (timers w !! k); [|discriminate].
    destruct (_ <=? _); [|discriminate]. injection Hstep as <-. exact Hinv.
Qed.

Lemma run_idle_not_loading (evs : list Event) (w w' : World) :
  (in_flight w = 0%nat -> loading w = false) ->
  run evs w = Some w' ->
  in_flight w' = 0%nat -> loading w' = false.
Proof.
  revert w. induction evs as [|e evs IH]; intros w Hinv Hrun; simpl in Hrun.
  - by injection Hrun as <-.
  - destruct (step e w) as [w1|] eqn:Hstep; [|discriminate].
    eapply IH; [|exact Hrun]. eapply step_idle_not_loading; eauto.
Qed.

(** X1. In every state the page can reach, [loading] is false whenever no
    call of [loadSystemInfo] is in flight: the Refresh button is never
    left disabled with nothing to wait for. *)
Lemma reachable_idle_not_loading (w : World) :
  reachable w -> in_flight w = 0%nat -> loading w = false.
Proof.
  intros [evs Hrun]. eapply run_idle_not_loading; [|exact Hrun].
  reflexivity.
Qed.

(** C4. A call of [loadSystemInfo] that fails, because the request could
    not be completed or because the body does not parse, never writes
    [systemInfo]: its start leaves it as it was, so does the arrival of the
    response, and so does its last turn, which adds the error toast. *)
Theorem failed_load_keeps_systemInfo
  (w0 w : World) (e : Event) (o : Outcome) :
  completion e w = Some o ->
  failed o = true ->
  systemInfo (loadSystemInfo w0) = systemInfo w0
  /\ (forall call r,
        systemInfo (resume_fetch call (Some r) w0) = systemInfo w0)
  /\ exists w', step e w = Some w'
       /\ systemInfo w' = systemInfo w
       /\ toasts w' = toasts w ++ [errorToast].
Proof.
  intros H Hfailed. do 2 (split; [reflexivity|]).
  completion_cases H; unfold step; rewrite Hpending;
    eexists; (split; [reflexivity|]).
  - split; reflexivity.
  - unfold resume_json. destruct (json response); simpl.
    + injection H as <-. discriminate Hfailed.
    + split; reflexivity.
Qed.

(** A cached payload survives a later call whose body is not valid JSON. *)
Lemma failed_load_keeps_systemInfo_witness :
  let cached := JS.VObj [("external_ip", JS.VStr "10.0.0.1")] in
  let w := resume_fetch 0 (Some {| status := 200; json := None |})
             (loadSystemInfo (setSystemInfo cached mounted)) in
  exists w', step (JsonSettles 0) w = Some w'
    /\ systemInfo w' = cached
    /\ toasts w' = [errorToast].
Proof.
  intros cached w.
  destruct (failed_load_keeps_systemInfo w w (JsonSettles 0) JsonRejected
              eq_refl eq_refl) as [_ [_ [w' [Hs [Hi Ht]]]]].
  exists w'. repeat split; assumption.
Defined.

(** C8. The status of a response is never read: a response with any status
    (404, 500, ...) whose body is valid JSON takes the call down the
    success path, where the parsed body becomes [systemInfo] and the
    "System info loaded" toast is shown. *)
Theorem any_status_with_json_is_loaded
  (w : World) (call : nat) (code : N) (data : JS.value) :
  pending w !! call = Some AwaitFetch ->
  exists w',
    run (respond call {| status := code; json := Some data |}) w = Some w'
    /\ systemInfo w' = data
    /\ toasts w' = toasts w ++ [loadedToast]
    /\ loading w' = false.
Proof.
  intros H. unfold respond, run, step. rewrite H.
  rewrite (proj2 (proj2 (proj2 (resume_fetch_response_frame call _ w)))).
  eexists. split; [reflexivity|]. repeat split.
Qed.

Lemma any_status_with_json_is_loaded_witness :
  pending (loadSystemInfo mounted) !! 0%nat = Some AwaitFetch
  /\ exists w',
       run (respond 0 {| status := 404;
                         json := Some (JS.VObj [("message", JS.VStr "Not Found")]) |})
           (loadSystemInfo mounted) = Some w'
       /\ systemInfo w' = JS.VObj [("message", JS.VStr "Not Found")]
       /\ toasts w' = toasts (loadSystemInfo mounted) ++ [loadedToast]
       /\ loading w' = false.
Proof.
  split; [reflexivity|].
  exact (any_status_with_json_is_loaded (loadSystemInfo mounted) 0 404
           (JS.VObj [("message", JS.VStr "Not Found")]) eq_refl).
Defined.

(** C3, as the code has it. A call fails exactly when [fetch] rejects or
    [response.json()] rejects; a body that is valid JSON is accepted
    whatever its shape.  The two failures are not told apart: either one is
    caught inside [loadSystemInfo] and becomes the same single error toast,
    [systemInfo] keeps its value and no rejection escapes. *)
Theorem loadSystemInfo_fails_iff_no_json
  (w : World) (call : nat) (r : option Response) :
  pending w !! call = Some AwaitFetch ->
  exists w',
    run (settle call r) w = Some w'
    /\ unhandledRejections w' = unhandledRejections w
    /\ loading w' = false
    /\ match r ≫= json with
       | Some data =>
           systemInfo w' = data /\ toasts w' = toasts w ++ [loadedToast]
       | None =>
           systemInfo w' = systemInfo w /\ toasts w' = toasts w ++ [errorToast]
       end.
Proof.
  intros H. destruct r as [[code body]|]; unfold settle, respond, run, step.
  - rewrite H.
    rewrite (proj2 (proj2 (proj2 (resume_fetch_response_frame call _ w)))).
    eexists. split; [reflexivity|].
    unfold resume_json. destruct body; simpl; repeat split.
  - rewrite H. eexists. split; [reflexivity|]. simpl. repeat split.
Qed.

Lemma loadSystemInfo_fails_iff_no_json_witness :
  exists w',
    run (settle 0 (Some {| status := 200; json := None |}))
        (loadSystemInfo mounted) = Some w'
    /\ systemInfo w' = JS.VNull
    /\ toasts w' = [errorToast].
Proof.
  destruct (loadSystemInfo_fails_iff_no_json (loadSystemInfo mounted) 0
              (Some {| status := 200; json := None |}) eq_refl)
    as [w' [Hrun [_ [_ [Hi Ht]]]]].
  exists w'. repeat split; assumption.
Defined.

(** C3 as stated fails: a body that is valid JSON but has none of the
    fields of a DiagnosticPayload is a ParseError in the words of the
    specification, yet the call stores it and shows the success toast. *)
Lemma wrong_shape_body_is_loaded :
  let response := {| status := 200; json := Some (JS.VObj []) |} in
  Spec.ParseError response = true
  /\ exists w',
       run (settle 0 (Some response)) (loadSystemInfo mounted) = Some w'
       /\ systemInfo w' = JS.VObj []
       /\ toasts w' = [loadedToast].
Proof.
  split; [reflexivity|]. eexists. split; [reflexivity|]. split; reflexivity.
Qed.

(** ** The automatic trigger and the Refresh button *)

Lemma vault_is_a_tab : bool_decide ("vault" ∈ tabValues) = true.
Proof. reflexivity. Qed.

(** What selecting the vault tab from another tab does: the effect runs
    and starts a call exactly when [systemInfo] is falsy.  [loading] is
    not consulted. *)
Lemma select_vault_step (w : World) :
  activeTab w <> "vault" ->
  step (SelectTab "vault") w =
    Some (if JS.truthy (systemInfo w) then setActiveTab "vault" w
          else loadSystemInfo (setActiveTab "vault" w)).
Proof.
  intros Hne. unfold step. rewrite vault_is_a_tab.
  apply String.eqb_neq in Hne. rewrite Hne.
  unfold effect; simpl. by destruct (JS.truthy (systemInfo w)).
Qed.

(** Selecting the tab that is already active changes nothing and starts
    nothing: the effect is keyed on [activeTab]. *)
Lemma select_active_tab_is_noop (w : World) :
  activeTab w ∈ tabValues ->
  step (SelectTab (activeTab w)) w = Some w.
Proof.
  intros Hin. unfold step. rewrite bool_decide_eq_true_2 by exact Hin.
  rewrite String.eqb_refl. by destruct w.
Qed.

(** C5, as the code has it. Selecting the vault tab from another tab
    starts exactly one call of [loadSystemInfo] when [systemInfo] is
    falsy, which it is when nothing is cached ([null]) and also when the
    cached body is [0], [false] or the empty string, and starts none when
    the cached payload is truthy, as every JSON object is. *)
Theorem select_vault_fetches_once_or_never (w : World) :
  activeTab w <> "vault" ->
  exists w',
    step (SelectTab "vault") w = Some w'
    /\ activeTab w' = "vault"
    /\ fetches_started w w' =
         (if JS.truthy (systemInfo w) then 0%nat else 1%nat)
    /\ pending w' =
         (if JS.truthy (systemInfo w) then pending w
          else <[nextCall w := AwaitFetch]> (pending w))
    /\ (systemInfo w = JS.VNull -> fetches_started w w' = 1%nat)
    /\ (forall props,
          systemInfo w = JS.VObj props -> fetches_started w w' = 0%nat).
Proof.
  intros Hne. rewrite (select_vault_step w Hne).
  eexists. split; [reflexivity|].
  unfold fetches_started.
  destruct (JS.truthy (systemInfo w)) eqn:Ht; simpl.
  - split; [done|]. split; [lia|]. split; [done|]. split.
    + intros Hnull. rewrite Hnull in Ht. discriminate.
    + intros props _. lia.
  - split; [done|]. split; [lia|]. split; [done|]. split.
    + intros _. lia.
    + intros props Hobj. rewrite Hobj in Ht. discriminate.
Qed.

Lemma select_vault_fetches_once_or_never_witness :
  exists w',
    step (SelectTab "vault") mounted = Some w'
    /\ fetches_started mounted w' = 1%nat
    /\ pending w' !! 0%nat = Some AwaitFetch.
Proof.
  destruct (select_vault_fetches_once_or_never mounted)
    as (w' & Hstep & _ & _ & Hp & Hnull & _).
  - discriminate.
  - exists w'. split; [exact Hstep|]. split; [exact (Hnull eq_refl)|].
    rewrite Hp. reflexivity.
Defined.

(** C5 as stated fails. The server answers with the JSON body [false];
    the call succeeds, the body is stored as the payload and the success
    toast is shown.  With that payload cached, selecting the vault tab
    again starts another call. *)
Lemma cached_false_body_is_fetched_again :
  let answer := {| status := 200; json := Some (JS.VBool false) |} in
  exists w w',
    run [SelectTab "vault"; FetchSettles 0 (Some answer); JsonSettles 0;
         SelectTab "prompt"] mounted = Some w
    /\ systemInfo w = JS.VBool false
    /\ toasts w = [loadedToast]
    /\ in_flight w = 0%nat
    /\ step (SelectTab "vault") w = Some w'
    /\ fetches_started w w' = 1%nat
    /\ in_flight w' = 1%nat.
Proof.
  intros answer. do 2 eexists. split; [vm_compute; reflexivity|].
  split; [reflexivity|]. split; [reflexivity|]. split; [reflexivity|].
  split; [vm_compute; reflexivity|]. split; reflexivity.
Qed.

(** The Refresh button cannot be pressed while [loading] is true, and is
    rendered disabled. *)
Lemma refresh_disabled_while_loading (w : World) :
  loading w = true ->
  step ClickRefresh w = None
  /\ forall panel, render_vault w = Some panel -> refresh_disabled panel = true.
Proof.
  intros Hl. split.
  - unfold step. rewrite Hl. by rewrite andb_false_r.
  - intros panel Hr. unfold render_vault in Hr.
    destruct (if JS.truthy (systemInfo w) then _ else _); [|discriminate].
    simpl in Hr. injection Hr as <-. exact Hl.
Qed.

(** C1, evaluated on the code. Open the vault tab, leave it and come back
    before the response arrives: the state in between is loading with one
    call in flight, the Refresh button is disabled there, and yet coming
    back starts a second call, so that two are in flight at once. *)
Theorem second_fetch_starts_while_loading :
  exists w1 w2,
    run [SelectTab "vault"; SelectTab "prompt"] mounted = Some w1
    /\ loading w1 = true
    /\ in_flight w1 = 1%nat
    /\ step ClickRefresh w1 = None
    /\ step (SelectTab "vault") w1 = Some w2
    /\ loading w2 = true
    /\ fetches_started w1 w2 = 1%nat
    /\ in_flight w2 = 2%nat
    /\ pending w2 !! 0%nat = Some AwaitFetch
    /\ pending w2 !! 1%nat = Some AwaitFetch.
Proof.
  do 2 eexists. split; [reflexivity|]. split; [reflexivity|].
  split; [reflexivity|]. split; [reflexivity|]. split; [reflexivity|].
  repeat split.
Qed.

(** With two calls in flight the first one to end switches [loading] off
    while the other is still waiting. *)
Lemma loading_off_with_call_in_flight :
  exists w,
    run [SelectTab "vault"; SelectTab "prompt"; SelectTab "vault";
         FetchSettles 0 None] mounted = Some w
    /\ loading w = false
    /\ pending w !! 1%nat = Some AwaitFetch.
Proof. eexists. split; [reflexivity|]. split; reflexivity. Qed.

(** ** Copying *)

(** C9, as the code has it. Whenever [navigator.clipboard.writeText]
    returns its promise, [copyToClipboard] sets the flag to [id] whatever
    becomes of that promise, which is neither awaited nor handled.  When
    the write is rejected the clipboard keeps its content, the rejection
    goes unhandled, and the flag is set all the same. *)
Theorem copied_flag_set_even_if_write_rejected
  (w : World) (text id : string) (fate : WriteFate) :
  fate <> NoClipboard ->
  exists w',
    copyToClipboard fate text id w = Some w'
    /\ step (ClickCopy text id fate) w = Some w'
    /\ copiedCode w' = Some id
    /\ (fate = Rejected ->
        clipboard w' = clipboard w
        /\ unhandledRejections w' = S (unhandledRejections w)).
Proof.
  intros Hfate. destruct fate; [done| |]; eexists;
    (split; [reflexivity|]); (split; [reflexivity|]);
    (split; [reflexivity|]).
  - discriminate.
  - intros _. by split.
Qed.

Lemma copied_flag_set_even_if_write_rejected_witness :
  exists w',
    copyToClipboard Rejected "text" "prompt" mounted = Some w'
    /\ copiedCode w' = Some "prompt"
    /\ clipboard w' = None
    /\ unhandledRejections w' = 1%nat.
Proof.
  destruct (copied_flag_set_even_if_write_rejected mounted "text" "prompt"
              Rejected) as (w' & Hc & _ & Hflag & Hrej).
  - discriminate.
  - exists w'. split; [exact Hc|]. split; [exact Hflag|].
    exact (Hrej eq_refl).
Defined.

(** C9 as stated fails. Where [navigator.clipboard] is undefined the write
    fails by throwing: [copyToClipboard] is left at its first statement,
    the flag is not set and no timeout is scheduled. *)
Lemma copy_without_clipboard_sets_no_flag :
  copyToClipboard NoClipboard "text" "prompt" mounted = None
  /\ exists w',
       step (ClickCopy "text" "prompt" NoClipboard) mounted = Some w'
       /\ copiedCode w' = None
       /\ timers w' = [].
Proof.
  split; [reflexivity|]. eexists. split; [reflexivity|]. by split.
Qed.

(** The state a copy leaves behind, as far as the flag and its timers
    go. *)
Lemma copyToClipboard_frame
  (w w0 : World) (text id : string) (fate : WriteFate) :
  copyToClipboard fate text id w = Some w0 ->
  copiedCode w0 = Some id
  /\ timers w0 = timers w ++ [now w + 2000]
  /\ now w0 = now w.
Proof.
  intros Hcopy. destruct fate; [discriminate| |];
    injection Hcopy as <-; by repeat split.
Qed.

(** As long as every pending timeout is due at [t0 + 2000] or later, the
    flag is not null before [t0 + 2000]; one turn keeps that so. *)
Lemma step_keeps_flag (t0 : N) (e : Event) (w w' : World) :
  step e w = Some w' ->
  t0 <= now w ->
  Forall (fun due => t0 + 2000 <= due) (timers w) ->
  (now w < t0 + 2000 -> copiedCode w <> None) ->
  t0 <= now w'
  /\ Forall (fun due => t0 + 2000 <= due) (timers w')
  /\ (now w' < t0 + 2000 -> copiedCode w' <> None).
Proof.
  intros Hstep Hnow Hdue Hflag.
  destruct e as [v|text id ok| |call r|call|ms|k]; simpl in Hstep.
  - case_bool_decide; [|discriminate]. injection Hstep as <-.
    destruct (String.eqb (activeTab w) v); [done|].
    unfold effect. by destruct (_ && _).
  - injection Hstep as <-. destruct ok; [done| |]; simpl;
      (split; [done|]); (split; [|done]);
      (apply Forall_app; split; [done|]); apply Forall_singleton; lia.
  - destruct (_ && _); [|discriminate]. by injection Hstep as <-.
  - destruct (pending w !! call) as [[|?]|]; try discriminate.
    injection Hstep as <-. by destruct r.
  - destruct (pending w !! call) as [[|resp]|]; try discriminate.
    injection Hstep as <-. unfold resume_json. by destruct (json resp).
  - injection Hstep as <-. simpl. split; [lia|]. split; [done|].
    intros Hlt. apply Hflag. lia.
  - destruct (timers w !! k) as [due|] eqn:Hk; [|discriminate].
    destruct (due <=? now w) eqn:Hle; [|discriminate].
    injection Hstep as <-. simpl. split; [done|].
    split; [by apply Forall_delete|].
    apply N.leb_le in Hle.
    pose proof (Forall_lookup_1 _ _ _ _ Hdue Hk) as Hd. simpl in Hd.
    intros Hlt. lia.
Qed.

Lemma run_keeps_flag (t0 : N) (evs : list Event) (w w' : World) :
  run evs w = Some w' ->
  t0 <= now w ->
  Forall (fun due => t0 + 2000 <= due) (timers w) ->
  (now w < t0 + 2000 -> copiedCode w <> None) ->
  now w' < t0 + 2000 -> copiedCode w' <> None.
Proof.
  revert w. induction evs as [|e evs IH]; intros w Hrun Hnow Hdue Hflag;
    simpl in Hrun.
  - by injection Hrun as <-.
  - destruct (step e w) as [w1|] eqn:Hstep; [|discriminate].
    destruct (step_keeps_flag t0 e w w1 Hstep Hnow Hdue Hflag)
      as [H1 [H2 H3]].
    by apply (IH w1).
Qed.

(** C2, as the code has it. Every copy in which
    [navigator.clipboard.writeText] does not throw sets the flag to [id]
    at once and schedules its clearing 2000 ms later.  When no timeout of
    an earlier copy is still pending at that moment, nothing that happens
    afterwards (further copies, tab changes, fetches, timers) makes the
    flag null sooner than 2000 ms after the call. *)
Theorem copied_flag_not_cleared_before_2000ms
  (w w0 : World) (text id : string) (fate : WriteFate) :
  copyToClipboard fate text id w = Some w0 ->
  copiedCode w0 = Some id
  /\ timers w0 = timers w ++ [now w + 2000]
  /\ forall (evs : list Event) (w' : World),
       timers w = [] ->
       run evs w0 = Some w' ->
       now w' < now w + 2000 ->
       copiedCode w' <> None.
Proof.
  intros Hcopy.
  destruct (copyToClipboard_frame w w0 text id fate Hcopy) as [Hc [Ht Hn]].
  split; [exact Hc|]. split; [exact Ht|].
  intros evs w' Htimers Hrun Hlt. rewrite Htimers in Ht.
  apply (run_keeps_flag (now w) evs w0 w' Hrun).
  - rewrite Hn. lia.
  - rewrite Ht. apply Forall_singleton. lia.
  - rewrite Hc. discriminate.
  - exact Hlt.
Qed.

Lemma copied_flag_not_cleared_before_2000ms_witness :
  exists w0 w',
    copyToClipboard Fulfilled "text" "prompt" mounted = Some w0
    /\ copiedCode w0 = Some "prompt"
    /\ run [Elapse 1500; ClickCopy "text" "prompt" Rejected; Elapse 499] w0
       = Some w'
    /\ now w' = 1999
    /\ copiedCode w' <> None.
Proof.
  eexists. eexists. split; [reflexivity|].
  match goal with
  | |- copiedCode ?w0 = _ /\ run ?evs _ = Some ?w' /\ _ =>
      destruct (copied_flag_not_cleared_before_2000ms mounted w0
                  "text" "prompt" Fulfilled eq_refl) as (Hc & _ & Hkeep);
      split; [exact Hc|]; split; [vm_compute; reflexivity|];
      split; [reflexivity|];
      apply (Hkeep evs); [reflexivity | vm_compute; reflexivity | reflexivity]
  end.
Defined.

(** The timeout a copy schedules may run once 2000 ms have passed, and
    then the flag is null. *)
Lemma copied_flag_cleared_after_2000ms
  (w w0 : World) (text id : string) (fate : WriteFate) :
  copyToClipboard fate text id w = Some w0 ->
  timers w = [] ->
  exists w',
    run [Elapse 2000; TimerFires 0] w0 = Some w'
    /\ copiedCode w' = None
    /\ timers w' = [].
Proof.
  intros Hcopy Htimers.
  destruct fate; [discriminate| |]; injection Hcopy as <-;
    unfold run, step; simpl; rewrite Htimers; simpl;
    rewrite N.leb_refl; eexists; (split; [reflexivity|]);
    split; reflexivity.
Qed.

(** C2 as stated fails. Copy the prompt, switch to the schema tab and copy
    the schema 1500 ms after the first copy: the flag is now ["schema"].
    The first copy's timeout was never cancelled; it runs at 2000 ms and
    makes the flag null 500 ms after the second copy set it.  And where
    [navigator.clipboard] is undefined the second copy sets no flag at
    all. *)
Lemma earlier_timeout_clears_later_copy :
  exists w1 w1' w2,
    run [ClickCopy "prompt text" "prompt" Fulfilled; SelectTab "schema";
         Elapse 1500] mounted = Some w1
    /\ now w1 = 1500
    /\ copyToClipboard Fulfilled "schema text" "schema" w1 = Some w1'
    /\ copiedCode w1' = Some "schema"
    /\ run [Elapse 500; TimerFires 0] w1' = Some w2
    /\ now w2 = 2000
    /\ now w2 < now w1 + 2000
    /\ copiedCode w2 = None
    /\ copyToClipboard NoClipboard "schema text" "schema" w1 = None.
Proof.
  do 3 eexists. split; [vm_compute; reflexivity|].
  split; [vm_compute; reflexivity|]. split; [vm_compute; reflexivity|].
  split; [vm_compute; reflexivity|]. split; [vm_compute; reflexivity|].
  split; [vm_compute; reflexivity|]. split; [vm_compute; reflexivity|].
  split; vm_compute; reflexivity.
Qed.

(** ** The vault panel *)

Lemma get_not_nullish (v : JS.value) (k : string) :
  JS.nullish v = false -> exists x, JS.get v k = Some x.
Proof. destruct v; try discriminate; simpl; eauto. Qed.

(** [v || {}] can always be enumerated. *)
Lemma entries_or_empty (v : JS.value) :
  exists entries, JS.Object_entries (JS.or v (JS.VObj [])) = Some entries.
Proof.
  unfold JS.or. destruct (JS.truthy v) eqn:Ht; [|simpl; eauto].
  destruct v; try discriminate Ht; simpl; eauto.
Qed.

(** Around the ".env Files Found" section nothing can throw once
    [systemInfo] is an object, so the panel shows what that section
    evaluates to. *)
Lemma render_vault_object
  (w : World) (props : list (string * JS.value)) (files : EnvFilesView) :
  systemInfo w = JS.VObj props ->
  render_env_files (JS.VObj props) = Some files ->
  exists panel view,
    render_vault w = Some panel
    /\ info_slot panel = Info view
    /\ env_files view = files.
Proof.
  intros Hinfo Hfiles. unfold render_vault. rewrite Hinfo. simpl JS.truthy.
  cbv iota. unfold render_info. rewrite Hfiles. simpl.
  destruct (entries_or_empty
              (default JS.VUndefined
                 (JS.own_prop "environment_variables" props)))
    as [vars ->].
  simpl. eauto.
Qed.

(** C6. When the cached payload is an object whose [env_files] is absent
    or is the empty object, the panel shows the "No .env files found"
    card, not a list of cards. *)
Theorem empty_env_files_renders_no_files_found
  (w : World) (props : list (string * JS.value)) :
  systemInfo w = JS.VObj props ->
  JS.own_prop "env_files" props = None
  \/ JS.own_prop "env_files" props = Some (JS.VObj []) ->
  exists panel view,
    render_vault w = Some panel
    /\ info_slot panel = Info view
    /\ env_files view = NoEnvFilesFound.
Proof.
  intros Hinfo Hfiles. apply (render_vault_object w props); [exact Hinfo|].
  unfold render_env_files. simpl.
  destruct Hfiles as [-> | ->]; reflexivity.
Qed.

Lemma empty_env_files_renders_no_files_found_witness :
  let payload :=
    JS.VObj [("external_ip", JS.VStr "10.0.0.1");
             ("directory_structure", JS.VObj []);
             ("environment_variables", JS.VObj [("HOME", JS.VStr "/root")]);
             ("env_files", JS.VObj []);
             ("request_id", JS.VStr "r-1");
             ("current_dir", JS.VStr "/app")] in
  Spec.is_DiagnosticPayload payload = true
  /\ exists panel view,
       render_vault (setSystemInfo payload mounted) = Some panel
       /\ info_slot panel = Info view
       /\ env_files view = NoEnvFilesFound.
Proof.
  intros payload. split; [reflexivity|].
  apply (empty_env_files_renders_no_files_found
           (setSystemInfo payload mounted) _ eq_refl).
  right. reflexivity.
Defined.

(** The card of one entry, when the entry is not [null]. *)
Lemma render_env_file_not_nullish (path : string) (data : JS.value) :
  JS.nullish data = false ->
  exists error content,
    JS.get data "error" = Some error
    /\ JS.get data "content" = Some content
    /\ render_env_file (path, data)
       = Some (path, if JS.truthy error then ErrorText error
                     else FileContent content).
Proof.
  intros Hn.
  destruct (get_not_nullish data "error" Hn) as [error He].
  destruct (get_not_nullish data "content" Hn) as [content Hc].
  exists error, content. split; [exact He|]. split; [exact Hc|].
  unfold render_env_file. rewrite He. simpl.
  destruct (JS.truthy error); [reflexivity|]. by rewrite Hc.
Qed.

(** C7, as the code has it. For a cached payload object whose [env_files]
    is an object with no [null] entry, the card of every entry shows the
    error text, and not the content, when the entry's [error] is truthy
    (for a string: not empty); otherwise, when [error] is absent or empty,
    it shows the entry's [content]. *)
Theorem env_file_card_shows_error_iff_truthy
  (w : World) (props entries : list (string * JS.value))
  (i : nat) (path : string) (data : JS.value) :
  systemInfo w = JS.VObj props ->
  JS.own_prop "env_files" props = Some (JS.VObj entries) ->
  Forall (fun entry => JS.nullish entry.2 = false) entries ->
  entries !! i = Some (path, data) ->
  exists panel view cards error content,
    render_vault w = Some panel
    /\ info_slot panel = Info view
    /\ env_files view = EnvFileCards cards
    /\ length cards = length entries
    /\ JS.get data "error" = Some error
    /\ JS.get data "content" = Some content
    /\ cards !! i
       = Some (path, if JS.truthy error then ErrorText error
                     else FileContent content).
Proof.
  intros Hinfo Hfiles Hentries Hi.
  assert (Hcards : exists cards, mapM render_env_file entries = Some cards).
  { apply mapM_is_Some. eapply Forall_impl; [exact Hentries|].
    intros [p d] Hn. simpl in Hn.
    destruct (render_env_file_not_nullish p d Hn) as (e & c & _ & _ & Hr).
    unfold compose. rewrite Hr. eauto. }
  destruct Hcards as [cards Hcards].
  assert (Hrender : render_env_files (JS.VObj props)
                    = Some (EnvFileCards cards)).
  { unfold render_env_files. simpl. rewrite Hfiles. simpl.
    destruct entries as [|entry rest]; [discriminate Hi|].
    simpl length. cbv iota beta.
    change (mapM render_env_file (entry :: rest) = Some cards) in Hcards.
    simpl. simpl in Hcards. by rewrite Hcards. }
  destruct (render_vault_object w props _ Hinfo Hrender)
    as (panel & view & Hp & Hs & Hv).
  apply mapM_Some in Hcards.
  destruct (Forall2_lookup_l _ _ _ _ _ Hcards Hi) as (card & Hcard & Hr).
  pose proof (Forall_lookup_1 _ _ _ _ Hentries Hi) as Hn. simpl in Hn.
  destruct (render_env_file_not_nullish path data Hn)
    as (error & content & He & Hc & Hr').
  rewrite Hr' in Hr. injection Hr as <-.
  exists panel, view, cards, error, content.
  repeat split; try assumption.
  symmetry. by eapply Forall2_length.
Qed.

Lemma env_file_card_shows_error_iff_truthy_witness :
  let payload :=
    JS.VObj [("external_ip", JS.VStr "10.0.0.1");
             ("directory_structure", JS.VObj []);
             ("environment_variables", JS.VObj []);
             ("env_files",
              JS.VObj [("/app/.env", JS.VObj [("content", JS.VStr "KEY=1")]);
                       ("/srv/.env",
                        JS.VObj [("error", JS.VStr "Permission denied")])]);
             ("request_id", JS.VStr "r-1");
             ("current_dir", JS.VStr "/app")] in
  exists panel view cards,
    render_vault (setSystemInfo payload mounted) = Some panel
    /\ info_slot panel = Info view
    /\ env_files view = EnvFileCards cards
    /\ cards !! 1%nat
       = Some ("/srv/.env", ErrorText (JS.VStr "Permission denied")).
Proof.
  intros payload.
  destruct (env_file_card_shows_error_iff_truthy
              (setSystemInfo payload mounted) _ _ 1 "/srv/.env"
              (JS.VObj [("error", JS.VStr "Permission denied")])
              eq_refl eq_refl)
    as (panel & view & cards & error & content
        & Hp & Hs & Hv & _ & He & _ & Hcard).
  - repeat constructor.
  - reflexivity.
  - exists panel, view, cards. repeat split; try assumption.
    injection He as <-. exact Hcard.
Defined.

(** C7 as stated fails. In a payload of the shape the specification
    gives, an entry [{error: ""}] carries an [error] field, yet its card
    is the content box, with the (missing) [content] in it, and not the
    error text. *)
Lemma empty_error_renders_content :
  let entry := JS.VObj [("error", JS.VStr "")] in
  let payload :=
    JS.VObj [("external_ip", JS.VStr "10.0.0.1");
             ("directory_structure", JS.VObj []);
             ("environment_variables", JS.VObj []);
             ("env_files", JS.VObj [("/app/.env", entry)]);
             ("request_id", JS.VStr "r-1");
             ("current_dir", JS.VStr "/app")] in
  Spec.is_DiagnosticPayload payload = true
  /\ JS.get entry "error" = Some (JS.VStr "")
  /\ exists panel view,
       render_vault (setSystemInfo payload mounted) = Some panel
       /\ info_slot panel = Info view
       /\ env_files view
          = EnvFileCards [("/app/.env", FileContent JS.VUndefined)].
Proof.
  intros entry payload. split; [reflexivity|]. split; [reflexivity|].
  do 2 eexists. split; [reflexivity|]. split; reflexivity.
Qed.

(** * Further properties of the page *)

(** ** What one turn can do *)

(** The state a turn leaves, event by event, with what made the event
    possible. *)
Lemma step_inv (e : Event) (w w' : World) :
  step e w = Some w' ->
  match e with
  | SelectTab v =>
      v ∈ tabValues
      /\ w' = (if String.eqb (activeTab w) v then setActiveTab v w
               else effect (setActiveTab v w))
  | ClickCopy text id fate =>
      w' = default w (copyToClipboard fate text id w)
  | ClickRefresh =>
      activeTab w = "vault" /\ loading w = false /\ w' = loadSystemInfo w
  | FetchSettles call r =>
      pending w !! call = Some AwaitFetch /\ w' = resume_fetch call r w
  | JsonSettles call =>
      exists response,
        pending w !! call = Some (AwaitJson response)
        /\ w' = resume_json call response w
  | Elapse ms => w' = set_now (now w + ms) w
  | TimerFires k =>
      exists due,
        timers w !! k = Some due /\ due <= now w
        /\ w' = setCopiedCode None (set_timers (delete k (timers w)) w)
  end.
Proof.
  intros Hstep.
  destruct e as [v|text id ok| |call r|call|ms|k]; simpl in Hstep.
  - case_bool_decide; [|discriminate]. injection Hstep as <-. by split.
  - by injection Hstep as <-.
  - destruct (String.eqb (activeTab w) "vault") eqn:Ht; [|discriminate].
    destruct (loading w) eqn:Hl; [discriminate|].
    injection Hstep as <-. apply String.eqb_eq in Ht. by repeat split.
  - destruct (pending w !! call) as [[|?]|]; try discriminate.
    injection Hstep as <-. by split.
  - destruct (pending w !! call) as [[|response]|]; try discriminate.
    injection Hstep as <-. exists response. by split.
  - by injection Hstep as <-.
  - destruct (timers w !! k) as [due|]; [|discriminate].
    destruct (due <=? now w) eqn:Hle; [|discriminate].
    injection Hstep as <-. exists due. apply N.leb_le in Hle. by repeat split.
Qed.

(** The effect after a change of tab to [v]: a call starts exactly when
    [v] is the vault tab and [systemInfo] is falsy. *)
Lemma effect_after_setActiveTab (v : string) (w : World) :
  effect (setActiveTab v w)
  = if String.eqb v "vault" && negb (JS.truthy (systemInfo w))
    then loadSystemInfo (setActiveTab v w)
    else setActiveTab v w.
Proof. reflexivity. Qed.

(** Open the vault tab and let the request fail: the page is idle again
    and not loading. *)
Lemma reachable_idle_not_loading_witness :
  exists w,
    run [SelectTab "vault"; FetchSettles 0 None] mounted = Some w
    /\ in_flight w = 0%nat
    /\ loading w = false.
Proof.
  eexists. split; [vm_compute; reflexivity|]. split; [reflexivity|].
  apply reachable_idle_not_loading; [|reflexivity].
  exists [SelectTab "vault"; FetchSettles 0 None]. vm_compute. reflexivity.
Defined.

(** X2. [systemInfo] is written by nothing but the arrival of a parsed
    body: whatever the turn (a tab change, a copy, a timeout, a failed
    call, time passing), either [systemInfo] is what it was, or the turn
    is the last one of a call whose body parsed and [systemInfo] is that
    body. *)
Theorem systemInfo_changes_only_when_loaded (e : Event) (w w' : World) :
  step e w = Some w' ->
  systemInfo w' = systemInfo w
  \/ exists data, completion e w = Some (Loaded data) /\ systemInfo w' = data.
Proof.
  intros Hstep. apply step_inv in Hstep.
  destruct e as [v|text id ok| |call r|call|ms|k].
  - destruct Hstep as [_ ->]. left.
    destruct (String.eqb (activeTab w) v); [reflexivity|].
    rewrite effect_after_setActiveTab. by destruct (_ && _).
  - subst w'. left. by destruct ok.
  - destruct Hstep as (_ & _ & ->). by left.
  - destruct Hstep as [_ ->]. left. by destruct r.
  - destruct Hstep as (response & Hp & ->).
    unfold completion, resume_json. rewrite Hp.
    destruct (json response) as [data|]; [right; by exists data|by left].
  - subst w'. by left.
  - destruct Hstep as (due & _ & _ & ->). by left.
Qed.

Lemma systemInfo_changes_only_when_loaded_witness :
  let cached := JS.VObj [("request_id", JS.VStr "r-1")] in
  let w := setSystemInfo cached mounted in
  exists w',
    step (SelectTab "schema") w = Some w' /\ systemInfo w' = cached.
Proof.
  intros cached w. eexists. split; [reflexivity|].
  destruct (systemInfo_changes_only_when_loaded (SelectTab "schema") w _
              eq_refl) as [H | (data & Hc & _)].
  - exact H.
  - discriminate Hc.
Defined.

(** X3. A call of [loadSystemInfo] is started by two things only: the
    Refresh button, and entering the vault tab from another tab while
    [systemInfo] is falsy.  Every other turn (a copy, a timeout, another
    tab, the end of a call, even a failed one) starts none: nothing is
    ever retried.  A turn starts at most one call. *)
Theorem fetch_started_only_by_refresh_or_vault (e : Event) (w w' : World) :
  step e w = Some w' ->
  nextCall w' = nextCall w
  \/ (nextCall w' = S (nextCall w)
      /\ pending w' !! nextCall w = Some AwaitFetch
      /\ loading w' = true
      /\ (e = ClickRefresh
          \/ (e = SelectTab "vault"
              /\ activeTab w <> "vault"
              /\ JS.truthy (systemInfo w) = false))).
Proof.
  intros Hstep. apply step_inv in Hstep.
  destruct e as [v|text id ok| |call r|call|ms|k].
  - destruct Hstep as [_ ->].
    destruct (String.eqb (activeTab w) v) eqn:Htab; [by left|].
    rewrite effect_after_setActiveTab.
    destruct (String.eqb v "vault") eqn:Hv; [|by left].
    destruct (JS.truthy (systemInfo w)) eqn:Ht; [by left|].
    right. apply String.eqb_eq in Hv. subst v.
    apply String.eqb_neq in Htab. simpl.
    split; [done|]. split; [apply lookup_insert_eq|]. split; [done|].
    right. done.
  - subst w'. left. by destruct ok.
  - destruct Hstep as (_ & _ & ->). right. simpl.
    split; [done|]. split; [apply lookup_insert_eq|]. split; [done|].
    by left.
  - destruct Hstep as [_ ->]. left. by destruct r.
  - destruct Hstep as (response & _ & ->). left.
    unfold resume_json. by destruct (json response).
  - subst w'. by left.
  - destruct Hstep as (due & _ & _ & ->). by left.
Qed.

Lemma fetch_started_only_by_refresh_or_vault_witness :
  exists w w',
    run [SelectTab "vault"] mounted = Some w
    /\ step (FetchSettles 0 None) w = Some w'
    /\ nextCall w' = nextCall w.
Proof.
  do 2 eexists. split; [reflexivity|]. split; [reflexivity|].
  match goal with
  | |- nextCall ?b = nextCall ?a =>
      destruct (fetch_started_only_by_refresh_or_vault (FetchSettles 0 None)
                  a b eq_refl) as [H | (_ & _ & _ & [H | [H _]])]
  end.
  - exact H.
  - discriminate H.
  - discriminate H.
Defined.

(** ** Calls in flight *)

(** One turn keeps "one call in flight when loading, none otherwise",
    unless it enters the vault tab while loading. *)
Lemma step_one_in_flight (e : Event) (w w' : World) :
  step e w = Some w' ->
  enters_vault_while_loading e w = false ->
  in_flight w = (if loading w then 1%nat else 0%nat) ->
  in_flight w' = (if loading w' then 1%nat else 0%nat).
Proof.
  intros Hstep Hguard Hinv.
  assert (Hload : forall w0 : World,
             pending w0 = pending w -> loading w = false ->
             in_flight (loadSystemInfo w0) = 1%nat).
  { intros w0 Hp Hl. rewrite Hl in Hinv.
    apply map_size_empty_iff in Hinv.
    unfold in_flight; simpl. rewrite Hp, Hinv.
    by rewrite map_size_insert_None by apply lookup_empty. }
  assert (Hone : forall call s, pending w !! call = Some s ->
             in_flight w = 1%nat).
  { intros call s Hp. destruct (loading w); [done|].
    apply map_size_empty_iff in Hinv. rewrite Hinv in Hp.
    by rewrite lookup_empty in Hp. }
  apply step_inv in Hstep.
  destruct e as [v|text id ok| |call r|call|ms|k].
  - destruct Hstep as [_ ->]. simpl in Hguard.
    destruct (String.eqb (activeTab w) v) eqn:Htab; [exact Hinv|].
    rewrite effect_after_setActiveTab.
    destruct (String.eqb v "vault") eqn:Hv; [|exact Hinv].
    destruct (JS.truthy (systemInfo w)); [exact Hinv|].
    apply String.eqb_eq in Hv. subst v. rewrite Htab in Hguard.
    simpl in Hguard. simpl. by apply Hload.
  - subst w'. by destruct ok.
  - destruct Hstep as (_ & Hl & ->). simpl. by apply Hload.
  - destruct Hstep as [Hp ->]. pose proof (Hone _ _ Hp) as H1.
    destruct r as [response|]; unfold in_flight; simpl.
    + rewrite map_size_insert_Some by eauto.
      exact Hinv.
    + rewrite map_size_delete_Some by eauto.
      unfold in_flight in H1. by rewrite H1.
  - destruct Hstep as (response & Hp & ->). pose proof (Hone _ _ Hp) as H1.
    unfold in_flight, resume_json.
    destruct (json response); simpl;
      rewrite map_size_delete_Some by eauto;
      unfold in_flight in H1; by rewrite H1.
  - subst w'. exact Hinv.
  - destruct Hstep as (due & _ & _ & ->). exact Hinv.
Qed.

(** X4. As long as the vault tab is never entered while [loading] is true,
    the page has at most one call of [loadSystemInfo] in flight, and it
    has one exactly when [loading] is true.  (Entering the vault tab while
    loading is the one way to break this.) *)
Theorem one_in_flight_when_staying_out
  (evs : list Event) (w w' : World) :
  in_flight w = (if loading w then 1%nat else 0%nat) ->
  stays_out_while_loading evs w = true ->
  run evs w = Some w' ->
  in_flight w' = (if loading w' then 1%nat else 0%nat).
Proof.
  revert w. induction evs as [|e evs IH]; intros w Hinv Hout Hrun;
    simpl in Hrun, Hout.
  - by injection Hrun as <-.
  - destruct (step e w) as [w1|] eqn:Hstep; [|discriminate].
    apply andb_true_iff in Hout as [Hguard Hout].
    apply negb_true_iff in Hguard.
    apply (IH w1); [|exact Hout|exact Hrun].
    by apply (step_one_in_flight e w w1).
Qed.

Lemma one_in_flight_when_staying_out_witness :
  exists w',
    run [SelectTab "vault"; SelectTab "api"; FetchSettles 0 None;
         SelectTab "vault"] mounted = Some w'
    /\ loading w' = true
    /\ in_flight w' = 1%nat.
Proof.
  eexists. split; [vm_compute; reflexivity|]. split; [reflexivity|].
  apply (one_in_flight_when_staying_out
           [SelectTab "vault"; SelectTab "api"; FetchSettles 0 None;
            SelectTab "vault"] mounted); vm_compute; reflexivity.
Defined.

(** One turn keeps the books: call numbers at or above [nextCall] are
    free, and every call started has either ended with one toast or is
    still in flight. *)
Lemma step_accounting (e : Event) (w w' : World) :
  step e w = Some w' ->
  (forall call, (nextCall w <= call)%nat -> pending w !! call = None) ->
  (length (toasts w) + in_flight w = nextCall w)%nat ->
  (forall call, (nextCall w' <= call)%nat -> pending w' !! call = None)
  /\ (length (toasts w') + in_flight w' = nextCall w')%nat.
Proof.
  intros Hstep Hfresh Hsum.
  assert (Hload : forall w0 : World,
             pending w0 = pending w -> nextCall w0 = nextCall w ->
             toasts w0 = toasts w ->
             (forall call, (nextCall (loadSystemInfo w0) <= call)%nat ->
                           pending (loadSystemInfo w0) !! call = None)
             /\ (length (toasts (loadSystemInfo w0))
                 + in_flight (loadSystemInfo w0)
                 = nextCall (loadSystemInfo w0))%nat).
  { intros w0 Hp Hn Ht. unfold in_flight; simpl. rewrite Hp, Hn, Ht. split.
    - intros call Hle. rewrite lookup_insert_ne by lia. apply Hfresh. lia.
    - rewrite map_size_insert_None by (apply Hfresh; lia).
      unfold in_flight in Hsum. lia. }
  assert (Hused : forall call s, pending w !! call = Some s ->
             (call < nextCall w)%nat /\ size (pending w) <> 0%nat).
  { intros call s Hp. split.
    - destruct (decide (call < nextCall w)%nat) as [|Hge]; [done|].
      rewrite Hfresh in Hp by lia. discriminate.
    - apply (map_size_ne_0_lookup_2 _ call). eauto. }
  unfold in_flight in Hsum.
  apply step_inv in Hstep.
  destruct e as [v|text id ok| |call r|call|ms|k].
  - destruct Hstep as [_ ->].
    destruct (String.eqb (activeTab w) v); [by split|].
    rewrite effect_after_setActiveTab.
    destruct (_ && _); [by apply Hload|by split].
  - subst w'. by destruct ok.
  - destruct Hstep as (_ & _ & ->). by apply Hload.
  - destruct Hstep as [Hp ->]. destruct (Hused _ _ Hp) as [Hlt Hne].
    destruct r as [response|]; unfold in_flight; simpl.
    + split.
      * intros c Hle. rewrite lookup_insert_ne by lia. by apply Hfresh.
      * rewrite map_size_insert_Some by eauto. exact Hsum.
    + split.
      * intros c Hle. rewrite lookup_delete_ne by lia. by apply Hfresh.
      * rewrite map_size_delete_Some by eauto.
        rewrite length_app. simpl. lia.
  - destruct Hstep as (response & Hp & ->).
    destruct (Hused _ _ Hp) as [Hlt Hne].
    unfold in_flight, resume_json.
    destruct (json response); simpl; (split;
      [ intros c Hle; rewrite lookup_delete_ne by lia; by apply Hfresh
      | rewrite map_size_delete_Some by eauto;
        rewrite length_app; simpl; lia ]).
  - subst w'. by split.
  - destruct Hstep as (due & _ & _ & ->). by split.
Qed.

Lemma run_accounting (evs : list Event) (w w' : World) :
  run evs w = Some w' ->
  (forall call, (nextCall w <= call)%nat -> pending w !! call = None) ->
  (length (toasts w) + in_flight w = nextCall w)%nat ->
  (forall call, (nextCall w' <= call)%nat -> pending w' !! call = None)
  /\ (length (toasts w') + in_flight w' = nextCall w')%nat.
Proof.
  revert w. induction evs as [|e evs IH]; intros w Hrun Hfresh Hsum;
    simpl in Hrun.
  - injection Hrun as <-. by split.
  - destruct (step e w) as [w1|] eqn:Hstep; [|discriminate].
    destruct (step_accounting e w w1 Hstep Hfresh Hsum) as [H1 H2].
    by apply (IH w1).
Qed.

(** X5. One toast per call, no more and no less: in every state the page
    can reach, the number of toasts shown so far plus the number of calls
    still in flight is the number of calls of [loadSystemInfo] started so
    far.  A new call never takes the number of a call still in flight. *)
Theorem one_toast_per_finished_call (w : World) :
  reachable w ->
  (length (toasts w) + in_flight w = nextCall w)%nat
  /\ pending w !! nextCall w = None.
Proof.
  intros [evs Hrun].
  destruct (run_accounting evs mounted w Hrun) as [Hfresh Hsum].
  - intros call _. apply lookup_empty.
  - reflexivity.
  - split; [exact Hsum|]. by apply Hfresh.
Qed.

Lemma one_toast_per_finished_call_witness :
  exists w,
    run [SelectTab "vault"; SelectTab "prompt"; SelectTab "vault";
         FetchSettles 1 None] mounted = Some w
    /\ (length (toasts w) + in_flight w = nextCall w)%nat.
Proof.
  eexists. split; [vm_compute; reflexivity|].
  refine (proj1 (one_toast_per_finished_call _ _)).
  exists [SelectTab "vault"; SelectTab "prompt"; SelectTab "vault";
          FetchSettles 1 None]. vm_compute. reflexivity.
Defined.

(** X6. The automatic trigger tests [systemInfo] for truthiness, and only
    that: entering the vault tab from another tab starts one call when
    [systemInfo] is falsy ([null], but also a cached body such as [0],
    [false] or the empty string) and none when it is truthy, whether or
    not a call is already loading.  The cached value itself is left
    alone. *)
Theorem vault_trigger_tests_truthiness (w : World) :
  activeTab w <> "vault" ->
  exists w',
    step (SelectTab "vault") w = Some w'
    /\ fetches_started w w'
       = (if JS.truthy (systemInfo w) then 0%nat else 1%nat)
    /\ systemInfo w' = systemInfo w
    /\ loading w' = (if JS.truthy (systemInfo w) then loading w else true).
Proof.
  intros Hne. rewrite (select_vault_step w Hne). eexists.
  split; [reflexivity|]. unfold fetches_started.
  destruct (JS.truthy (systemInfo w)); simpl; repeat split; lia.
Qed.

(** The server answers with the JSON body [0]; it is cached, and the next
    visit of the vault tab fetches again. *)
Lemma vault_trigger_tests_truthiness_witness :
  let zero := {| status := 200; json := Some (JS.VNum (S754_zero false)) |} in
  exists w w',
    run [SelectTab "vault"; FetchSettles 0 (Some zero); JsonSettles 0;
         SelectTab "prompt"] mounted = Some w
    /\ systemInfo w = JS.VNum (S754_zero false)
    /\ step (SelectTab "vault") w = Some w'
    /\ fetches_started w w' = 1%nat.
Proof.
  intros zero. eexists.
  match goal with
  | |- exists w', run ?evs ?m = Some ?w /\ _ =>
      let r := eval vm_compute in (run evs m) in
      match r with
      | Some ?x =>
          unify w x;
          destruct (vault_trigger_tests_truthiness x) as (w' & Hs & Hf & _);
          [ discriminate
          | exists w'; split; [vm_compute; reflexivity|];
            split; [reflexivity|]; split; [exact Hs|exact Hf] ]
      end
  end.
Defined.



(** X8. Responses are applied in the order their bodies are read, not in
    the order the calls were started: with two calls waiting for their
    bodies, the payload that stays is the one read last, and each call
    shows its own success toast. *)
Theorem last_body_read_wins
  (w : World) (c1 c2 : nat) (r1 r2 : Response) (d1 d2 : JS.value) :
  c1 <> c2 ->
  pending w !! c1 = Some (AwaitJson r1) ->
  pending w !! c2 = Some (AwaitJson r2) ->
  json r1 = Some d1 ->
  json r2 = Some d2 ->
  exists w',
    run [JsonSettles c2; JsonSettles c1] w = Some w'
    /\ systemInfo w' = d1
    /\ toasts w' = toasts w ++ [loadedToast; loadedToast]
    /\ loading w' = false
    /\ pending w' = delete c1 (delete c2 (pending w)).
Proof.
  intros Hne H1 H2 Hd1 Hd2. unfold run, step. rewrite H2.
  assert (Hp : pending (resume_json c2 r2 w) !! c1 = Some (AwaitJson r1)).
  { unfold resume_json. rewrite Hd2. simpl.
    by rewrite lookup_delete_ne by done. }
  rewrite Hp. eexists. split; [reflexivity|].
  unfold resume_json. rewrite Hd1, Hd2. simpl.
  rewrite <- app_assoc. by repeat split.
Qed.

(** The call started first is answered last: its payload replaces the
    newer one. *)
Lemma last_body_read_wins_witness :
  let older := {| status := 200; json := Some (JS.VStr "older") |} in
  let newer := {| status := 200; json := Some (JS.VStr "newer") |} in
  exists w w',
    run [SelectTab "vault"; SelectTab "prompt"; SelectTab "vault";
         FetchSettles 0 (Some older); FetchSettles 1 (Some newer)] mounted
      = Some w
    /\ run [JsonSettles 1; JsonSettles 0] w = Some w'
    /\ systemInfo w' = JS.VStr "older".
Proof.
  intros older newer. eexists.
  match goal with
  | |- exists w', run ?evs ?m = Some ?w /\ _ =>
      let r := eval vm_compute in (run evs m) in
      match r with
      | Some ?x =>
          unify w x;
          destruct (last_body_read_wins x 0 1 older newer
                      (JS.VStr "older") (JS.VStr "newer"))
            as (w' & Hr & Hi & _);
          [ discriminate | vm_compute; reflexivity | vm_compute; reflexivity
          | reflexivity | reflexivity
          | exists w'; split; [vm_compute; reflexivity|];
            split; [exact Hr|exact Hi] ]
      end
  end.
Defined.

(** ** The copied flag and its timeouts *)

(** One turn keeps: a non-null flag has a timeout pending, and every
    pending timeout is due within 2000 ms. *)
Lemma step_flag_has_timeout (e : Event) (w w' : World) :
  step e w = Some w' ->
  (copiedCode w <> None -> timers w <> []) ->
  Forall (fun due => due <= now w + 2000) (timers w) ->
  (copiedCode w' <> None -> timers w' <> [])
  /\ Forall (fun due => due <= now w' + 2000) (timers w').
Proof.
  intros Hstep Hflag Hdue. apply step_inv in Hstep.
  destruct e as [v|text id ok| |call r|call|ms|k].
  - destruct Hstep as [_ ->].
    destruct (String.eqb (activeTab w) v); [by split|].
    rewrite effect_after_setActiveTab. by destruct (_ && _).
  - subst w'. destruct ok; [done| |]; simpl; (split;
      [ intros _ Hnil; by apply app_nil in Hnil as [_ ?]
      | apply Forall_app; split; [done|]; apply Forall_singleton; lia ]).
  - destruct Hstep as (_ & _ & ->). by split.
  - destruct Hstep as [_ ->]. by destruct r.
  - destruct Hstep as (response & _ & ->). unfold resume_json.
    by destruct (json response).
  - subst w'. simpl. split; [done|].
    eapply Forall_impl; [exact Hdue|]. simpl. intros due Hle. lia.
  - destruct Hstep as (due & _ & _ & ->). simpl.
    split; [done|]. by apply Forall_delete.
Qed.

Lemma run_flag_has_timeout (evs : list Event) (w w' : World) :
  run evs w = Some w' ->
  (copiedCode w <> None -> timers w <> []) ->
  Forall (fun due => due <= now w + 2000) (timers w) ->
  (copiedCode w' <> None -> timers w' <> [])
  /\ Forall (fun due => due <= now w' + 2000) (timers w').
Proof.
  revert w. induction evs as [|e evs IH]; intros w Hrun Hflag Hdue;
    simpl in Hrun.
  - injection Hrun as <-. by split.
  - destruct (step e w) as [w1|] eqn:Hstep; [|discriminate].
    destruct (step_flag_has_timeout e w w1 Hstep Hflag Hdue) as [H1 H2].
    by apply (IH w1).
Qed.

(** X9. The "copied" acknowledgment cannot stay on for ever: in every
    state the page can reach in which [copiedCode] is not null, a timeout
    that sets it to null is pending, due no later than 2000 ms from
    now. *)
Theorem copied_flag_has_pending_timeout (w : World) :
  reachable w ->
  copiedCode w <> None ->
  exists due, due ∈ timers w /\ due <= now w + 2000.
Proof.
  intros [evs Hrun] Hflag.
  destruct (run_flag_has_timeout evs mounted w Hrun) as [Hne Hdue].
  - intros H. by destruct H.
  - constructor.
  - destruct (timers w) as [|due rest] eqn:Ht; [by destruct (Hne Hflag)|].
    exists due. split; [left|].
    by apply Forall_cons in Hdue as [? _].
Qed.

Lemma copied_flag_has_pending_timeout_witness :
  exists w due,
    run [ClickCopy "text" "prompt" Fulfilled; Elapse 1500;
         ClickCopy "text" "prompt" Rejected; Elapse 500] mounted
      = Some w
    /\ copiedCode w = Some "prompt"
    /\ due ∈ timers w /\ due <= now w + 2000.
Proof.
  eexists.
  match goal with
  | |- exists due, run ?evs ?m = Some ?w /\ _ =>
      let r := eval vm_compute in (run evs m) in
      match r with
      | Some ?x =>
          unify w x;
          destruct (copied_flag_has_pending_timeout x) as (due & Hin & Hle);
          [ exists evs; vm_compute; reflexivity
          | discriminate
          | exists due; split; [vm_compute; reflexivity|];
            split; [reflexivity|]; by split ]
      end
  end.
Defined.

(** [`example-${index}`] names one card only. *)
Lemma example_id_eqb (i j : nat) :
  String.eqb (example_id i) (example_id j) = bool_decide (i = j).
Proof.
  case_bool_decide as Hij.
  - subst j. apply String.eqb_refl.
  - apply String.eqb_neq. intros Heq. apply Hij.
    unfold example_id in Heq.
    apply (inj (String.app "example-")) in Heq.
    by apply (inj pretty) in Heq.
Qed.

(** No two copy buttons share an id. *)
Lemma button_id_eqb (b b' : CopyButton) :
  String.eqb (button_id b) (button_id b') = bool_decide (b = b').
Proof.
  assert (Hprompt : forall k, example_id k <> "prompt").
  { intros k. unfold example_id. cbv [String.app]. discriminate. }
  assert (Hschema : forall k, example_id k <> "schema").
  { intros k. unfold example_id. cbv [String.app]. discriminate. }
  destruct b as [| |i], b' as [| |j]; cbn [button_id];
    try (rewrite bool_decide_eq_true_2 by done; reflexivity);
    try (rewrite bool_decide_eq_false_2 by done; apply String.eqb_neq;
         first [ discriminate | apply Hprompt | apply Hschema
               | intros H; symmetry in H; revert H;
                 first [apply Hprompt | apply Hschema] ]).
  rewrite example_id_eqb. case_bool_decide as Hij.
  - subst j. by rewrite bool_decide_eq_true_2.
  - rewrite bool_decide_eq_false_2; [done|]. intros H. by injection H.
Qed.

(** X10. Every copy button answers to its own id only.  After a press of
    a copy button whose [copyToClipboard] did not throw, that button
    shows the check mark and every other copy button of the page (the
    prompt button, the schema button, the button of any other example
    card) shows the plain copy icon. *)
Theorem only_pressed_copy_button_shows_check
  (w w' : World) (text : string) (fate : WriteFate)
  (pressed other : CopyButton) :
  copyToClipboard fate text (button_id pressed) w = Some w' ->
  copy_icon (button_id other) w'
  = (if bool_decide (pressed = other) then "Check" else "Copy").
Proof.
  intros Hcopy.
  destruct (copyToClipboard_frame w w' text _ fate Hcopy) as [Hc _].
  unfold copy_icon. rewrite Hc, button_id_eqb. reflexivity.
Qed.

Lemma only_pressed_copy_button_shows_check_witness :
  exists w',
    copyToClipboard Fulfilled "output" (example_id 1) mounted = Some w'
    /\ copy_icon (example_id 1) w' = "Check"
    /\ copy_icon (example_id 2) w' = "Copy"
    /\ copy_icon "prompt" w' = "Copy".
Proof.
  eexists. split; [reflexivity|].
  split; [|split].
  - exact (only_pressed_copy_button_shows_check mounted _ "output" Fulfilled
             (ExampleButton 1) (ExampleButton 1) eq_refl).
  - exact (only_pressed_copy_button_shows_check mounted _ "output" Fulfilled
             (ExampleButton 1) (ExampleButton 2) eq_refl).
  - exact (only_pressed_copy_button_shows_check mounted _ "output" Fulfilled
             (ExampleButton 1) PromptButton eq_refl).
Defined.

(** ** Rendering payloads of any shape *)

Lemma truthy_not_nullish (v : JS.value) :
  JS.truthy v = true -> JS.nullish v = false.
Proof. by destruct v. Qed.

(** A card cannot be built exactly for a [null] entry: reading [.error]
    off it throws. *)
Lemma render_env_file_None (entry : string * JS.value) :
  render_env_file entry = None <-> JS.nullish entry.2 = true.
Proof.
  destruct entry as [path data]. cbn [snd]. split.
  - intros Hnone. destruct (JS.nullish data) eqn:Hn; [done|].
    destruct (render_env_file_not_nullish path data Hn)
      as (e & c & _ & _ & Hr).
    rewrite Hr in Hnone. discriminate.
  - by destruct data.
Qed.

Lemma render_env_file_Some
  (path : string) (data : JS.value) (card : string * FileBody) :
  render_env_file (path, data) = Some card ->
  card.1 = path /\ JS.nullish data = false.
Proof.
  intros Hr. destruct (JS.nullish data) eqn:Hn.
  - apply (render_env_file_None (path, data)) in Hn.
    rewrite Hn in Hr. discriminate.
  - destruct (render_env_file_not_nullish path data Hn)
      as (e & c & _ & _ & Hr').
    rewrite Hr' in Hr. injection Hr as <-. by split.
Qed.

(** The ".env Files Found" section once [env_files || {}] has been
    enumerated. *)
Lemma render_env_files_entries
  (info ef : JS.value) (entries : list (string * JS.value)) :
  JS.get info "env_files" = Some ef ->
  JS.Object_entries (JS.or ef (JS.VObj [])) = Some entries ->
  render_env_files info
  = match entries with
    | [] => Some NoEnvFilesFound
    | _ => EnvFileCards <$> mapM render_env_file entries
    end.
Proof.
  intros Hget Hentries. unfold render_env_files, JS.Object_keys.
  rewrite Hget. simpl. rewrite Hentries. simpl.
  by destruct entries.
Qed.

(** Everything in the info block other than the env-files section can be
    evaluated for any truthy [systemInfo]. *)
Lemma render_info_truthy (info : JS.value) :
  JS.truthy info = true ->
  render_info info = None <-> render_env_files info = None.
Proof.
  intros Ht. apply truthy_not_nullish in Ht. unfold render_info.
  destruct (get_not_nullish info "external_ip" Ht) as [ip ->].
  destruct (get_not_nullish info "directory_structure" Ht) as [dirs ->].
  destruct (get_not_nullish info "environment_variables" Ht) as [vars ->].
  destruct (get_not_nullish info "request_id" Ht) as [rid ->].
  destruct (get_not_nullish info "current_dir" Ht) as [cwd ->].
  simpl. destruct (entries_or_empty vars) as [es ->]. simpl.
  by destruct (render_env_files info).
Qed.

(** X11. A [null] among the entries of [env_files || {}] of a truthy
    [systemInfo] (for instance the body
    [{"env_files": {"/app/.env": null}}]) makes the evaluation of the
    vault panel throw: reading [data.error] off it is a [TypeError]. *)
Theorem null_env_file_entry_makes_render_throw
  (w : World) (ef : JS.value) (entries : list (string * JS.value)) :
  JS.truthy (systemInfo w) = true ->
  JS.get (systemInfo w) "env_files" = Some ef ->
  JS.Object_entries (JS.or ef (JS.VObj [])) = Some entries ->
  Exists (fun entry => JS.nullish entry.2 = true) entries ->
  render_vault w = None.
Proof.
  intros Ht Hget Hentries Hex. unfold render_vault. rewrite Ht.
  assert (Hfiles : render_env_files (systemInfo w) = None).
  { rewrite (render_env_files_entries _ _ _ Hget Hentries).
    destruct entries as [|entry rest]; [by apply Exists_nil in Hex|].
    rewrite fmap_None, mapM_None.
    eapply Exists_impl; [exact Hex|]. intros x Hx.
    by apply render_env_file_None. }
  apply (render_info_truthy _ Ht) in Hfiles. by rewrite Hfiles.
Qed.

(** The body [{"env_files": {"/app/.env": null}}] is accepted by
    [loadSystemInfo] and then makes the panel throw. *)
Lemma null_env_file_entry_makes_render_throw_witness :
  let body := JS.VObj [("env_files", JS.VObj [("/app/.env", JS.VNull)])] in
  let answer := {| status := 200; json := Some body |} in
  exists w,
    run [SelectTab "vault"; FetchSettles 0 (Some answer); JsonSettles 0]
        mounted = Some w
    /\ systemInfo w = body
    /\ render_vault w = None.
Proof.
  intros body answer. eexists. split; [vm_compute; reflexivity|].
  split; [reflexivity|].
  apply (null_env_file_entry_makes_render_throw _
           (JS.VObj [("/app/.env", JS.VNull)]) [("/app/.env", JS.VNull)]);
    [reflexivity | reflexivity | reflexivity | by left].
Defined.

(** X12. A truthy cached body that is not an object (a number, [true], a
    non-empty string, an array) is shown as an info block all of whose
    fields are undefined, with no environment variables and the "No .env
    files found" card; the hint to click Refresh is not shown. *)
Theorem non_object_payload_renders_blank_info (w : World) :
  JS.truthy (systemInfo w) = true ->
  Spec.is_mapping (systemInfo w) = false ->
  render_vault w
  = Some {| refresh_disabled := loading w;
            refresh_label := if loading w then "Loading..." else "Refresh";
            info_slot :=
              Info {| external_ip := JS.VUndefined;
                      directory_structure := JS.VUndefined;
                      environment_variables := [];
                      env_files := NoEnvFilesFound;
                      request_id := JS.VUndefined;
                      current_dir := JS.VUndefined |};
            placeholder := false |}.
Proof.
  intros Ht Hm. unfold render_vault. rewrite Ht.
  destruct (systemInfo w) as [| |b|f|s|elems|props];
    try discriminate; reflexivity.
Qed.

(** The server answers [42]. *)
Lemma non_object_payload_renders_blank_info_witness :
  let answer :=
    {| status := 200;
       json := Some (JS.VNum (S754_finite false 42 0)) |} in
  exists w panel,
    run [SelectTab "vault"; FetchSettles 0 (Some answer); JsonSettles 0]
        mounted = Some w
    /\ render_vault w = Some panel
    /\ placeholder panel = false
    /\ refresh_label panel = "Refresh".
Proof.
  intros answer. eexists.
  match goal with
  | |- exists panel, run ?evs ?m = Some ?w /\ _ =>
      let r := eval vm_compute in (run evs m) in
      match r with
      | Some ?x =>
          unify w x; eexists; split; [vm_compute; reflexivity|];
          split; [exact (non_object_payload_renders_blank_info x
                           eq_refl eq_refl)|];
          split; reflexivity
      end
  end.
Defined.

(** X13. Whenever the ".env Files Found" section shows cards, the list is
    not empty and has one card per entry of [env_files || {}], in the
    order of the entries and under their paths, and no entry is
    [null]. *)
Theorem env_file_cards_follow_entries
  (info : JS.value) (cards : list (string * FileBody)) :
  render_env_files info = Some (EnvFileCards cards) ->
  cards <> []
  /\ exists ef entries,
       JS.get info "env_files" = Some ef
       /\ JS.Object_entries (JS.or ef (JS.VObj [])) = Some entries
       /\ cards.*1 = entries.*1
       /\ Forall (fun entry => JS.nullish entry.2 = false) entries.
Proof.
  intros Hr.
  destruct (JS.get info "env_files") as [ef|] eqn:Hget;
    [|unfold render_env_files in Hr; rewrite Hget in Hr; discriminate].
  destruct (entries_or_empty ef) as [entries Hentries].
  rewrite (render_env_files_entries _ _ _ Hget Hentries) in Hr.
  destruct entries as [|entry rest]; [discriminate|].
  apply fmap_Some in Hr as (cards' & Hm & Heq). injection Heq as <-.
  apply mapM_Some in Hm.
  assert (Hall : forall es cs,
             Forall2 (fun x y => render_env_file x = Some y) es cs ->
             cs.*1 = es.*1
             /\ Forall (fun e => JS.nullish e.2 = false) es).
  { intros es cs Hf.
    induction Hf as [|[p d] card es cs Hcard _ [IH1 IH2]]; [by split|].
    destruct (render_env_file_Some p d card Hcard) as [Hp Hd].
    split; [rewrite !fmap_cons; cbn [fst]; congruence|]. by constructor. }
  destruct (Hall _ _ Hm) as [Hkeys Hnn]. split.
  - intros ->. discriminate Hkeys.
  - by exists ef, (entry :: rest).
Qed.

Lemma env_file_cards_follow_entries_witness :
  let info :=
    JS.VObj [("env_files",
              JS.VObj [("/app/.env", JS.VObj [("content", JS.VStr "A=1")]);
                       ("/srv/.env", JS.VObj [("error", JS.VStr "denied")])])]
  in
  exists cards,
    render_env_files info = Some (EnvFileCards cards)
    /\ cards <> [].
Proof.
  intros info. eexists. split; [vm_compute; reflexivity|].
  match goal with
  | |- ?cs <> [] =>
      exact (proj1 (env_file_cards_follow_entries info cs eq_refl))
  end.
Defined.

(** ** What tab changes leave alone *)

(** X14. The copied flag is written by two things only: a copy sets it to
    the id of the button, and a timeout sets it to null.  Changing tab,
    refreshing, the end of a call and the passing of time leave it as it
    is, so an acknowledgment is still showing when the user comes back to
    the tab before the timeout runs. *)
Theorem copied_flag_written_only_by_copy_and_timeout
  (e : Event) (w w' : World) :
  step e w = Some w' ->
  copiedCode w' = copiedCode w
  \/ (exists text id fate,
        e = ClickCopy text id fate /\ copiedCode w' = Some id)
  \/ (exists k due,
        e = TimerFires k /\ timers w !! k = Some due /\ due <= now w
        /\ copiedCode w' = None).
Proof.
  intros Hstep. apply step_inv in Hstep.
  destruct e as [v|text id ok| |call r|call|ms|k].
  - destruct Hstep as [_ ->]. left.
    destruct (String.eqb (activeTab w) v); [reflexivity|].
    rewrite effect_after_setActiveTab. by destruct (_ && _).
  - subst w'. destruct ok; [by left| |]; right; left;
      [by exists text, id, Fulfilled|by exists text, id, Rejected].
  - destruct Hstep as (_ & _ & ->). by left.
  - destruct Hstep as [_ ->]. left. by destruct r.
  - destruct Hstep as (response & _ & ->). left.
    unfold resume_json. by destruct (json response).
  - subst w'. by left.
  - destruct Hstep as (due & Hk & Hle & ->). right. right.
    by exists k, due.
Qed.

Lemma copied_flag_written_only_by_copy_and_timeout_witness :
  exists w w',
    run [ClickCopy "text" "prompt" Fulfilled; Elapse 1000] mounted = Some w
    /\ step (SelectTab "schema") w = Some w'
    /\ copiedCode w' = Some "prompt".
Proof.
  eexists.
  match goal with
  | |- exists w', run ?evs ?m = Some ?w /\ _ =>
      let r := eval vm_compute in (run evs m) in
      match r with
      | Some ?x =>
          unify w x; eexists; split; [vm_compute; reflexivity|];
          split; [vm_compute; reflexivity|];
          match goal with
          | |- copiedCode ?y = _ =>
              destruct (copied_flag_written_only_by_copy_and_timeout
                          (SelectTab "schema") x y)
                as [H | [(t & i & f & H & _) | (k & d & H & _)]];
              [ vm_compute; reflexivity | rewrite H; reflexivity
              | discriminate H | discriminate H ]
          end
      end
  end.
Defined.

(** X15. Leaving the vault tab does not cancel a call in flight: the call
    stays suspended, [loading] stays as it is, and when the response
    arrives its body is stored and the success toast shown on whatever
    tab the user is then. *)
Theorem leaving_vault_does_not_cancel
  (w : World) (call : nat) (v : string) (code : N) (data : JS.value) :
  pending w !! call = Some AwaitFetch ->
  v ∈ tabValues ->
  v <> "vault" ->
  exists w1 w2,
    step (SelectTab v) w = Some w1
    /\ pending w1 = pending w
    /\ loading w1 = loading w
    /\ run (respond call {| status := code; json := Some data |}) w1
       = Some w2
    /\ activeTab w2 = v
    /\ systemInfo w2 = data
    /\ toasts w2 = toasts w ++ [loadedToast].
Proof.
  intros Hp Hin Hne.
  assert (Hstep : step (SelectTab v) w = Some (setActiveTab v w)).
  { unfold step. rewrite bool_decide_eq_true_2 by exact Hin.
    destruct (String.eqb (activeTab w) v); [reflexivity|].
    rewrite effect_after_setActiveTab.
    apply String.eqb_neq in Hne. by rewrite Hne. }
  exists (setActiveTab v w). eexists.
  split; [exact Hstep|]. split; [reflexivity|]. split; [reflexivity|].
  unfold respond, run, step.
  change (pending (setActiveTab v w)) with (pending w). rewrite Hp.
  rewrite (proj2 (proj2 (proj2
             (resume_fetch_response_frame call
                {| status := code; json := Some data |}
                (setActiveTab v w))))).
  split; [reflexivity|]. by repeat split.
Qed.

Lemma leaving_vault_does_not_cancel_witness :
  let body := JS.VObj [("request_id", JS.VStr "r-1")] in
  exists w w1 w2,
    run [SelectTab "vault"] mounted = Some w
    /\ step (SelectTab "api") w = Some w1
    /\ run (respond 0 {| status := 200; json := Some body |}) w1 = Some w2
    /\ activeTab w2 = "api"
    /\ systemInfo w2 = body.
Proof.
  intros body. eexists.
  match goal with
  | |- exists w1 w2, run ?evs ?m = Some ?w /\ _ =>
      let r := eval vm_compute in (run evs m) in
      match r with
      | Some ?x =>
          unify w x;
          destruct (leaving_vault_does_not_cancel x 0 "api" 200 body)
            as (w1 & w2 & Hs & _ & _ & Hr & Ht & Hi & _);
          [ vm_compute; reflexivity
          | vm_compute; set_solver
          | discriminate
          | exists w1, w2; split; [vm_compute; reflexivity|];
            by repeat split ]
      end
  end.
Defined.
